(** * OMEN fan control for Linux: the hardware abstraction layer

    A shallow embedding of [hp_wmi.py], [temperature.py] and
    [fan_control.py].  The kernel's sysfs tree is an explicit value that
    the readers inspect and the writers return updated; Python
    exceptions are the [Raise] branch of a small error monad, and every
    [try]/[except] of the source is a [try_except] naming the classes
    that the clause catches. *)

From Stdlib Require Import Bool Arith ZArith List Ascii String Lia.
From Stdlib Require Import PrimFloat SpecFloat FloatOps.
Import ListNotations.

Open Scope list_scope.
Open Scope string_scope.

(** ** Exceptions and the error monad *)

Inductive pyexn : Type :=
| FileNotFoundError
| PermissionError
| IsADirectoryError
| ValueError
| OverflowError.

(** [IOError] is an alias of [OSError]; the three file errors are its
    subclasses. *)
Definition IOError (e : pyexn) : bool :=
  match e with
  | FileNotFoundError | PermissionError | IsADirectoryError => true
  | ValueError | OverflowError => false
  end.

Definition is_ValueError (e : pyexn) : bool :=
  match e with ValueError => true | _ => false end.

Definition IOError_or_ValueError (e : pyexn) : bool :=
  IOError e || is_ValueError e.

Inductive result (A : Type) : Type :=
| Ok (a : A)
| Raise (e : pyexn).

Arguments Ok {A} a.
Arguments Raise {A} e.

Definition bind {A B : Type} (c : result A) (k : A -> result B) : result B :=
  match c with
  | Ok a => k a
  | Raise e => Raise e
  end.

Notation "x <- c ;; k" := (bind c (fun x => k))
  (at level 61, c at next level, right associativity).

(** [try: body  except <classes>: handler]. *)
Definition try_except {A : Type} (body : result A) (catches : pyexn -> bool)
    (handler : result A) : result A :=
  match body with
  | Ok a => Ok a
  | Raise e => if catches e then handler else Raise e
  end.

(** ** Python string operations (ASCII text, as sysfs serves it) *)

Module Str.

Definition code (c : ascii) : nat := nat_of_ascii c.

(** [str.isspace] on one ASCII character. *)
Definition is_space (c : ascii) : bool :=
  let n := code c in
  (((9 <=? n) && (n <=? 13)) || ((28 <=? n) && (n <=? 32)))%nat.

Fixpoint lstrip (s : string) : string :=
  match s with
  | EmptyString => EmptyString
  | String c s' => if is_space c then lstrip s' else s
  end.

Fixpoint rstrip (s : string) : string :=
  match s with
  | EmptyString => EmptyString
  | String c s' =>
      match rstrip s' with
      | EmptyString => if is_space c then EmptyString else String c EmptyString
      | r => String c r
      end
  end.

Definition strip (s : string) : string := rstrip (lstrip s).

(** [str.split()] without arguments: maximal runs of non-blank characters. *)
Fixpoint split_go (tok : option string) (s : string) : list string :=
  match s with
  | EmptyString => match tok with Some t => [t] | None => [] end
  | String c s' =>
      if is_space c then
        match tok with
        | Some t => t :: split_go None s'
        | None => split_go None s'
        end
      else
        split_go (Some (match tok with
                        | Some t => t ++ String c EmptyString
                        | None => String c EmptyString
                        end)) s'
  end.

Definition split (s : string) : list string := split_go None s.

Definition lower_char (c : ascii) : ascii :=
  let n := code c in
  if ((65 <=? n) && (n <=? 90))%nat then ascii_of_nat (n + 32) else c.

Fixpoint lower (s : string) : string :=
  match s with
  | EmptyString => EmptyString
  | String c s' => String (lower_char c) (lower s')
  end.

(** [sub in s]. *)
Fixpoint contains (sub s : string) : bool :=
  prefix sub s ||
  match s with
  | EmptyString => false
  | String _ s' => contains sub s'
  end.

Fixpoint endswith (suf s : string) : bool :=
  (s =? suf) ||
  match s with
  | EmptyString => false
  | String _ s' => endswith suf s'
  end.

(** [s.replace(old, new)] for a non-empty [old]: every occurrence, left to
    right, without overlap.  [skip] counts the characters of a matched
    occurrence still to be dropped. *)
Fixpoint replace_go (old new : string) (skip : nat) (s : string) : string :=
  match s with
  | EmptyString => EmptyString
  | String c s' =>
      match skip with
      | S k => replace_go old new k s'
      | O =>
          if prefix old s
          then new ++ replace_go old new (String.length old - 1) s'
          else String c (replace_go old new 0 s')
      end
  end.

Definition replace (old new s : string) : string := replace_go old new 0 s.

Definition mem (x : string) (l : list string) : bool :=
  existsb (String.eqb x) l.

End Str.

(** ** [int(text)] and [int / float] *)

Definition is_digit (c : ascii) : bool :=
  let n := Str.code c in ((48 <=? n) && (n <=? 57))%nat.

Definition digit_val (c : ascii) : Z := Z.of_nat (Str.code c) - 48.

(** Decimal digits, a single underscore allowed between two digits. *)
Fixpoint parse_digits (acc : Z) (s : string) : option Z :=
  match s with
  | EmptyString => None
  | String c s' =>
      if is_digit c then
        let acc' := (10 * acc + digit_val c)%Z in
        match s' with
        | EmptyString => Some acc'
        | String d s'' =>
            if (d =? "_")%char then parse_digits acc' s''
            else parse_digits acc' s'
        end
      else None
  end.

Definition py_int (text : string) : result Z :=
  let s := Str.strip text in
  let parsed :=
    match s with
    | String c r =>
        if (c =? "-")%char then option_map Z.opp (parse_digits 0 r)
        else if (c =? "+")%char then parse_digits 0 r
        else parse_digits 0 s
    | EmptyString => None
    end in
  match parsed with
  | Some z => Ok z
  | None => Raise ValueError
  end.

(** Conversion of a Python [int] to a [float]: the nearest binary64 value,
    ties to even; an integer beyond the range raises [OverflowError]. *)
Definition float_of_int (m : Z) : result float :=
  match binary_normalize prec emax m 0 false with
  | S754_infinity _ => Raise OverflowError
  | sf => Ok (SF2Prim sf)
  end.

(** [m / d] for an [int] [m] and a non-zero [float] [d]. *)
Definition truediv (m : Z) (d : float) : result float :=
  f <- float_of_int m ;; Ok (f / d)%float.

(** [raw / 1000.0]. *)
Definition millidegrees_to_celsius (raw : Z) : result float :=
  truediv raw 1000%float.

(** ** Paths: [os.path] and [glob] *)

Module Path.

(** [os.path.join a b]. *)
Definition join (a b : string) : string :=
  if prefix "/" b then b
  else if (a =? "") || Str.endswith "/" a then a ++ b
  else a ++ "/" ++ b.

(** The part of [p] up to and including its last slash, and the rest. *)
Fixpoint cut (p : string) : string * string :=
  match p with
  | EmptyString => (EmptyString, EmptyString)
  | String c p' =>
      let (h, t) := cut p' in
      if negb (h =? "") then (String c h, t)
      else if (c =? "/")%char then (String c EmptyString, p')
      else (EmptyString, p)
  end.

Fixpoint rstrip_slash (s : string) : string :=
  match s with
  | EmptyString => EmptyString
  | String c s' =>
      match rstrip_slash s' with
      | EmptyString => if (c =? "/")%char then EmptyString else String c EmptyString
      | r => String c r
      end
  end.

(** [os.path.split p]. *)
Definition split (p : string) : string * string :=
  let (h, t) := cut p in
  (if rstrip_slash h =? "" then h else rstrip_slash h, t).

Definition basename (p : string) : string := snd (split p).

(** [fnmatch] for the patterns of this program: literal characters and
    the star. *)
Fixpoint fnmatch (pat : string) : string -> bool :=
  match pat with
  | EmptyString => fun s => s =? ""
  | String c pat' =>
      if (c =? "*")%char then
        fix star (s : string) : bool :=
          fnmatch pat' s ||
          match s with
          | EmptyString => false
          | String _ s' => star s'
          end
      else
        fun s =>
          match s with
          | EmptyString => false
          | String d s' => (c =? d)%char && fnmatch pat' s'
          end
  end.

Fixpoint strip_prefix (pre s : string) : option string :=
  match pre with
  | EmptyString => Some s
  | String a pre' =>
      match s with
      | EmptyString => None
      | String b s' => if (a =? b)%char then strip_prefix pre' s' else None
      end
  end.

End Path.

(** ** The sysfs tree *)

(** A node is a directory or an attribute file with the text it serves and
    whether this process may read and write it. *)
Inductive node : Type :=
| Dir
| File (content : string) (readable writable : bool).

(** Nodes by absolute path, in the order the kernel enumerates them. *)
Definition sysfs : Type := list (string * node).

Module Sysfs.

Fixpoint lookup (p : string) (fs : sysfs) : option node :=
  match fs with
  | [] => None
  | (q, n) :: rest => if q =? p then Some n else lookup p rest
  end.

(** [os.path.exists p]. *)
Definition exists_ (fs : sysfs) (p : string) : bool :=
  match lookup p fs with Some _ => true | None => false end.

(** [with open(p, 'r') as f: f.read()]. *)
Definition read (fs : sysfs) (p : string) : result string :=
  match lookup p fs with
  | None => Raise FileNotFoundError
  | Some Dir => Raise IsADirectoryError
  | Some (File text r _) => if r then Ok text else Raise PermissionError
  end.

Fixpoint store (p v : string) (fs : sysfs) : sysfs :=
  match fs with
  | [] => []
  | (q, n) :: rest =>
      if q =? p then
        match n with
        | File _ r w => (q, File v r w) :: rest
        | Dir => (q, n) :: rest
        end
      else (q, n) :: store p v rest
  end.

(** [with open(p, 'w') as f: f.write(v)].  sysfs creates no file on
    [open]: a missing attribute is refused like a read-only one. *)
Definition write (fs : sysfs) (p v : string) : result sysfs :=
  match lookup p fs with
  | None => Raise PermissionError
  | Some Dir => Raise IsADirectoryError
  | Some (File _ _ w) => if w then Ok (store p v fs) else Raise PermissionError
  end.

(** The name of [p] inside directory [dir], when [p] is an entry of it. *)
Definition entry_name (dir p : string) : option string :=
  match Path.strip_prefix (dir ++ "/") p with
  | Some n => if (n =? "") || Str.contains "/" n then None else Some n
  | None => None
  end.

Fixpoint listdir (fs : sysfs) (dir : string) : list string :=
  match fs with
  | [] => []
  | (p, _) :: rest =>
      match entry_name dir p with
      | Some n => n :: listdir rest dir
      | None => listdir rest dir
      end
  end.

(** [glob.glob pattern] for a pattern whose directory part is literal:
    the entries of that directory whose name matches, in enumeration
    order. *)
Definition glob (fs : sysfs) (pattern : string) : list string :=
  let (dir, pat) := Path.split pattern in
  map (Path.join dir) (filter (Path.fnmatch pat) (listdir fs dir)).

End Sysfs.

(** ** hp_wmi.py *)

Module PerformanceMode.
Inductive t : Type := QUIET | BALANCED | PERFORMANCE.
End PerformanceMode.

Module MaxFanMode.
Inductive t : Type := OFF | ON.
Definition eqb (a b : t) : bool :=
  match a, b with
  | OFF, OFF | ON, ON => true
  | _, _ => false
  end.
End MaxFanMode.

(** Truth value of an [Optional[str]]: [None] and the empty string are
    false.  (The members of the three enumerations are all true, so a test
    of an optional member is a test for [None].) *)
Definition truthy (o : option string) : bool :=
  match o with
  | Some s => negb (s =? "")
  | None => false
  end.

(** A [for] loop whose body is a [try] block appending one item:
    an exception of a caught class skips the item, any other one leaves
    the loop. *)
Fixpoint collect {A B : Type} (body : A -> result B) (catches : pyexn -> bool)
    (items : list A) : result (list B) :=
  match items with
  | [] => Ok []
  | x :: rest =>
      match body x with
      | Ok b => bs <- collect body catches rest ;; Ok (b :: bs)
      | Raise e => if catches e then collect body catches rest else Raise e
      end
  end.

Module HpWmiInterface.

Definition PLATFORM_PROFILE : string := "/sys/firmware/acpi/platform_profile".
Definition PLATFORM_PROFILE_CHOICES : string :=
  "/sys/firmware/acpi/platform_profile_choices".
Definition HP_WMI_PATH : string := "/sys/devices/platform/hp-wmi".
Definition HWMON_PATH : string := "/sys/class/hwmon".

Record t : Type := mk {
  _hp_wmi_available : bool;
  _platform_profile_available : bool;
  _hwmon_hp_wmi_path : option string
}.

(** The fallback scan of [_detect_hp_wmi_hwmon]. *)
Fixpoint _detect_scan (fs : sysfs) (dirs : list string) : result (option string) :=
  match dirs with
  | [] => Ok None
  | hwmon_dir :: rest =>
      let name_file := Path.join hwmon_dir "name" in
      if Sysfs.exists_ fs name_file then
        text <- Sysfs.read fs name_file ;;
        if Str.contains "hp" (Str.lower text) then Ok (Some hwmon_dir)
        else _detect_scan fs rest
      else _detect_scan fs rest
  end.

(** Returns the value left in [_hwmon_hp_wmi_path]. *)
Definition _detect_hp_wmi_hwmon (fs : sysfs) (hp_wmi_available : bool)
    : result (option string) :=
  if negb hp_wmi_available then Ok None
  else
    let hwmon_pattern := Path.join (Path.join HP_WMI_PATH "hwmon") "hwmon*" in
    match Sysfs.glob fs hwmon_pattern with
    | m :: _ => Ok (Some m)
    | [] => _detect_scan fs (Sysfs.glob fs (Path.join HWMON_PATH "hwmon*"))
    end.

Definition __init__ (fs : sysfs) : result t :=
  let hp := Sysfs.exists_ fs HP_WMI_PATH in
  let pp := Sysfs.exists_ fs PLATFORM_PROFILE in
  path <- _detect_hp_wmi_hwmon fs hp ;;
  Ok (mk hp pp path).

Definition is_available (self : t) : bool :=
  _hp_wmi_available self || _platform_profile_available self.

Definition get_available_profiles (fs : sysfs) : result (list string) :=
  if negb (Sysfs.exists_ fs PLATFORM_PROFILE_CHOICES) then Ok []
  else
    try_except
      (text <- Sysfs.read fs PLATFORM_PROFILE_CHOICES ;;
       Ok (Str.split (Str.strip text)))
      IOError
      (Ok []).

(** [profile_map.get(profile, PerformanceMode.BALANCED)]. *)
Definition profile_map (profile : string) : PerformanceMode.t :=
  if profile =? "low-power" then PerformanceMode.QUIET
  else if profile =? "quiet" then PerformanceMode.QUIET
  else if profile =? "balanced" then PerformanceMode.BALANCED
  else if profile =? "performance" then PerformanceMode.PERFORMANCE
  else PerformanceMode.BALANCED.

Definition get_current_mode (self : t) (fs : sysfs)
    : result (option PerformanceMode.t) :=
  if negb (_platform_profile_available self) then Ok None
  else
    try_except
      (text <- Sysfs.read fs PLATFORM_PROFILE ;;
       let profile := Str.strip text in
       Ok (Some (profile_map profile)))
      IOError
      (Ok None).

Definition profile_variations (mode : PerformanceMode.t) : list string :=
  match mode with
  | PerformanceMode.QUIET => ["low-power"; "quiet"]
  | PerformanceMode.BALANCED => ["balanced"]
  | PerformanceMode.PERFORMANCE => ["performance"]
  end.

(** The loop that picks [profile_to_set]: the first variation that is
    among the available profiles. *)
Fixpoint first_available (variations available : list string) : option string :=
  match variations with
  | [] => None
  | variation :: rest =>
      if Str.mem variation available then Some variation
      else first_available rest available
  end.

Definition set_mode (self : t) (mode : PerformanceMode.t) (fs : sysfs)
    : result (bool * sysfs) :=
  if negb (_platform_profile_available self) then Ok (false, fs)
  else
    available <- get_available_profiles fs ;;
    let profile_to_set := first_available (profile_variations mode) available in
    if negb (truthy profile_to_set) then Ok (false, fs)
    else
      match profile_to_set with
      | None => Ok (false, fs)
      | Some profile =>
          try_except
            (fs' <- Sysfs.write fs PLATFORM_PROFILE profile ;; Ok (true, fs'))
            IOError
            (Ok (false, fs))
      end.

Definition get_max_fan (self : t) (fs : sysfs) : result (option MaxFanMode.t) :=
  match _hwmon_hp_wmi_path self with
  | None => Ok None
  | Some path =>
      if negb (truthy (Some path)) then Ok None
      else
        let pwm_enable := Path.join path "pwm1_enable" in
        if negb (Sysfs.exists_ fs pwm_enable) then Ok None
        else
          try_except
            (text <- Sysfs.read fs pwm_enable ;;
             value <- py_int (Str.strip text) ;;
             Ok (Some (if (value =? 0)%Z then MaxFanMode.ON else MaxFanMode.OFF)))
            IOError_or_ValueError
            (Ok None)
  end.

Definition set_max_fan (self : t) (mode : MaxFanMode.t) (fs : sysfs)
    : result (bool * sysfs) :=
  match _hwmon_hp_wmi_path self with
  | None => Ok (false, fs)
  | Some path =>
      if negb (truthy (Some path)) then Ok (false, fs)
      else
        let pwm_enable := Path.join path "pwm1_enable" in
        if negb (Sysfs.exists_ fs pwm_enable) then Ok (false, fs)
        else
          try_except
            (let value := if MaxFanMode.eqb mode MaxFanMode.ON then "0" else "2" in
             fs' <- Sysfs.write fs pwm_enable value ;; Ok (true, fs'))
            IOError
            (Ok (false, fs))
  end.

(** The body of the loop of [_read_fans_from_hwmon]. *)
Definition _read_fan (fs : sysfs) (fan_file : string) : result (string * Z) :=
  text <- Sysfs.read fs fan_file ;;
  rpm <- py_int (Str.strip text) ;;
  let label_file := Str.replace "_input" "_label" fan_file in
  label <-
    (if Sysfs.exists_ fs label_file
     then (l <- Sysfs.read fs label_file ;; Ok (Str.strip l))
     else Ok (Str.replace "_input" "" (Path.basename fan_file))) ;;
  Ok (label, rpm).

Definition _read_fans_from_hwmon (fs : sysfs) (hwmon_path : string)
    : result (list (string * Z)) :=
  collect (_read_fan fs) IOError_or_ValueError
    (Sysfs.glob fs (Path.join hwmon_path "fan*_input")).

Fixpoint _other_fans (self : t) (fs : sysfs) (dirs : list string)
    : result (list (string * Z)) :=
  match dirs with
  | [] => Ok []
  | hwmon_dir :: rest =>
      if negb (match _hwmon_hp_wmi_path self with
               | Some path => hwmon_dir =? path
               | None => false
               end)
      then
        here <- _read_fans_from_hwmon fs hwmon_dir ;;
        more <- _other_fans self fs rest ;;
        Ok (here ++ more)%list
      else _other_fans self fs rest
  end.

Definition get_fan_speeds (self : t) (fs : sysfs) : result (list (string * Z)) :=
  own <-
    (match _hwmon_hp_wmi_path self with
     | Some path =>
         if truthy (Some path) then _read_fans_from_hwmon fs path else Ok []
     | None => Ok []
     end) ;;
  others <- _other_fans self fs (Sysfs.glob fs (Path.join HWMON_PATH "hwmon*")) ;;
  Ok (own ++ others)%list.

(** The dictionary of [get_system_info]; the two modes go by the name of
    the enumeration member. *)
Record SystemInfo : Type := mkInfo {
  hp_wmi_available : bool;
  platform_profile_available : bool;
  hwmon_hp_wmi_path : option string;
  available_profiles : list string;
  current_mode : option string;
  max_fan : option string;
  fan_speeds : list (string * Z)
}.

Definition PerformanceMode_name (m : PerformanceMode.t) : string :=
  match m with
  | PerformanceMode.QUIET => "QUIET"
  | PerformanceMode.BALANCED => "BALANCED"
  | PerformanceMode.PERFORMANCE => "PERFORMANCE"
  end.

Definition MaxFanMode_name (m : MaxFanMode.t) : string :=
  match m with
  | MaxFanMode.OFF => "OFF"
  | MaxFanMode.ON => "ON"
  end.

Definition get_system_info (self : t) (fs : sysfs) : result SystemInfo :=
  profiles <- get_available_profiles fs ;;
  current <- get_current_mode self fs ;;
  max_fan <- get_max_fan self fs ;;
  speeds <- get_fan_speeds self fs ;;
  Ok (mkInfo (_hp_wmi_available self) (_platform_profile_available self)
        (_hwmon_hp_wmi_path self) profiles
        (option_map PerformanceMode_name current)
        (option_map MaxFanMode_name max_fan)
        speeds).

End HpWmiInterface.

(** ** temperature.py *)

Record TemperatureReading : Type := mkReading {
  label : string;
  device : string;
  temperature : float;
  critical : option float;
  max_temp : option float
}.

(** A Python [dict] with string keys: insertion order is kept, assigning
    to a key that is present replaces its value in place. *)
Module Dict.

Definition t (V : Type) : Type := list (string * V).

Fixpoint set {V : Type} (k : string) (v : V) (d : t V) : t V :=
  match d with
  | [] => [(k, v)]
  | (k', v') :: rest =>
      if k' =? k then (k', v) :: rest else (k', v') :: set k v rest
  end.

Fixpoint get {V : Type} (k : string) (d : t V) : option V :=
  match d with
  | [] => None
  | (k', v') :: rest => if k' =? k then Some v' else get k rest
  end.

Definition values {V : Type} (d : t V) : list V := map snd d.

End Dict.

Module TemperatureMonitor.

Definition HWMON_PATH : string := "/sys/class/hwmon".

Record t : Type := mk {
  _hwmon_devices : Dict.t string
}.

(** The loop of [_discover_hwmon_devices], started on the devices found
    so far. *)
Fixpoint _discover_scan (fs : sysfs) (dirs : list string)
    (devices : Dict.t string) : result (Dict.t string) :=
  match dirs with
  | [] => Ok devices
  | hwmon_dir :: rest =>
      let name_file := Path.join hwmon_dir "name" in
      if Sysfs.exists_ fs name_file then
        devices' <-
          try_except
            (text <- Sysfs.read fs name_file ;;
             let name := Str.strip text in
             Ok (Dict.set name hwmon_dir devices))
            IOError
            (Ok devices) ;;
        _discover_scan fs rest devices'
      else _discover_scan fs rest devices
  end.

Definition _discover_hwmon_devices (fs : sysfs) : result (Dict.t string) :=
  _discover_scan fs (Sysfs.glob fs (Path.join HWMON_PATH "hwmon*")) [].

Definition __init__ (fs : sysfs) : result t :=
  devices <- _discover_hwmon_devices fs ;;
  Ok (mk devices).

(** The optional critical and max thresholds: the sibling file is read
    when it exists, and skipped when it cannot be read or parsed. *)
Definition _read_threshold (fs : sysfs) (file : string) : result (option float) :=
  if Sysfs.exists_ fs file then
    try_except
      (text <- Sysfs.read fs file ;;
       raw <- py_int (Str.strip text) ;;
       value <- millidegrees_to_celsius raw ;;
       Ok (Some value))
      IOError_or_ValueError
      (Ok None)
  else Ok None.

(** The body of the loop of [_read_temperatures_from_hwmon]. *)
Definition _read_temperature (fs : sysfs) (device_name temp_file : string)
    : result TemperatureReading :=
  text <- Sysfs.read fs temp_file ;;
  temp_milli <- py_int (Str.strip text) ;;
  temperature <- millidegrees_to_celsius temp_milli ;;
  let base_name := Str.replace "_input" "" (Path.basename temp_file) in
  let label_file := Str.replace "_input" "_label" temp_file in
  label <-
    (if Sysfs.exists_ fs label_file
     then (l <- Sysfs.read fs label_file ;; Ok (Str.strip l))
     else Ok (device_name ++ "_" ++ base_name)) ;;
  critical <- _read_threshold fs (Str.replace "_input" "_crit" temp_file) ;;
  max_temp <- _read_threshold fs (Str.replace "_input" "_max" temp_file) ;;
  Ok (mkReading label device_name temperature critical max_temp).

Definition _read_temperatures_from_hwmon (fs : sysfs)
    (device_name hwmon_path : string) : result (list TemperatureReading) :=
  collect (_read_temperature fs device_name) IOError_or_ValueError
    (Sysfs.glob fs (Path.join hwmon_path "temp*_input")).

Fixpoint _read_devices (fs : sysfs) (devices : Dict.t string)
    : result (list TemperatureReading) :=
  match devices with
  | [] => Ok []
  | (name, path) :: rest =>
      here <- _read_temperatures_from_hwmon fs name path ;;
      more <- _read_devices fs rest ;;
      Ok (here ++ more)%list
  end.

Definition get_all_temperatures (self : t) (fs : sysfs)
    : result (list TemperatureReading) :=
  _read_devices fs (_hwmon_devices self).

(** [for reading in readings: if test(reading): return reading.temperature]. *)
Fixpoint first_reading (test : TemperatureReading -> bool)
    (readings : list TemperatureReading) : option float :=
  match readings with
  | [] => None
  | reading :: rest =>
      if test reading then Some (temperature reading)
      else first_reading test rest
  end.

(** The same loop nested in [for device in devices]. *)
Fixpoint first_by_device (devices : list string)
    (test : string -> TemperatureReading -> bool)
    (readings : list TemperatureReading) : option float :=
  match devices with
  | [] => None
  | dev :: rest =>
      match first_reading (test dev) readings with
      | Some value => Some value
      | None => first_by_device rest test readings
      end
  end.

Definition cpu_devices : list string := ["coretemp"; "k10temp"; "zenpower"].
Definition gpu_devices : list string := ["amdgpu"; "nvidia"; "nouveau"].

Definition label_has (word : string) (reading : TemperatureReading) : bool :=
  Str.contains word (Str.lower (label reading)).

(** [get_cpu_temperature] after the readings are collected. *)
Definition cpu_temperature_of (readings : list TemperatureReading) : option float :=
  match first_by_device cpu_devices
          (fun dev reading =>
             (device reading =? dev) &&
             (label_has "package" reading || label_has "tctl" reading))
          readings with
  | Some value => Some value
  | None =>
      match first_by_device cpu_devices
              (fun dev reading => device reading =? dev) readings with
      | Some value => Some value
      | None => first_reading (label_has "cpu") readings
      end
  end.

Definition get_cpu_temperature (self : t) (fs : sysfs) : result (option float) :=
  readings <- get_all_temperatures self fs ;;
  Ok (cpu_temperature_of readings).

Section Gpu.

(** What [_get_nvidia_smi_temperature] gives in the environment: the
    outcome of the external [nvidia-smi] query. *)
Variable nvidia_smi : result (option float).

(** [get_gpu_temperature] after the readings are collected. *)
Definition gpu_temperature_of (readings : list TemperatureReading)
    : result (option float) :=
  match first_by_device gpu_devices
          (fun dev reading =>
             (device reading =? dev) &&
             ((label_has "edge" reading || label_has "junction" reading)
              || Str.mem dev ["nvidia"; "nouveau"]))
          readings with
  | Some value => Ok (Some value)
  | None =>
      match first_by_device gpu_devices
              (fun dev reading => device reading =? dev) readings with
      | Some value => Ok (Some value)
      | None =>
          nvidia_temp <- nvidia_smi ;;
          match nvidia_temp with
          | Some value => Ok (Some value)
          | None => Ok None
          end
      end
  end.

Definition get_gpu_temperature (self : t) (fs : sysfs) : result (option float) :=
  readings <- get_all_temperatures self fs ;;
  gpu_temperature_of readings.

Definition get_summary (self : t) (fs : sysfs)
    : result (option float * option float) :=
  cpu <- get_cpu_temperature self fs ;;
  gpu <- get_gpu_temperature self fs ;;
  Ok (cpu, gpu).

End Gpu.

End TemperatureMonitor.

(** ** fan_control.py *)

Module FanMode.
Inductive t : Type := QUIET | BALANCED | PERFORMANCE | MAX | OFF.
End FanMode.

Record SystemStatus : Type := mkStatus {
  cpu_temp : option float;
  gpu_temp : option float;
  fan_mode : option FanMode.t;
  fan_speeds : list (string * Z);
  max_fan_enabled : bool;
  is_available : bool
}.

Module FanController.

Record t : Type := mk {
  _hp_wmi : HpWmiInterface.t;
  _temp_monitor : TemperatureMonitor.t
}.

Definition __init__ (fs : sysfs) : result t :=
  hp <- HpWmiInterface.__init__ fs ;;
  mon <- TemperatureMonitor.__init__ fs ;;
  Ok (mk hp mon).

Definition is_available (self : t) : bool :=
  HpWmiInterface.is_available (_hp_wmi self).

(** [mode_map.get(current_mode, FanMode.BALANCED)] of [get_status]. *)
Definition status_mode_map (m : PerformanceMode.t) : FanMode.t :=
  match m with
  | PerformanceMode.QUIET => FanMode.QUIET
  | PerformanceMode.BALANCED => FanMode.BALANCED
  | PerformanceMode.PERFORMANCE => FanMode.PERFORMANCE
  end.

Section Status.

Variable nvidia_smi : result (option float).

Definition get_status (self : t) (fs : sysfs) : result SystemStatus :=
  temps <- TemperatureMonitor.get_summary nvidia_smi (_temp_monitor self) fs ;;
  let (cpu_temp, gpu_temp) := temps in
  current_mode <- HpWmiInterface.get_current_mode (_hp_wmi self) fs ;;
  let fan_mode :=
    match current_mode with
    | Some m => Some (status_mode_map m)
    | None => None
    end in
  max_fan <- HpWmiInterface.get_max_fan (_hp_wmi self) fs ;;
  let max_fan_enabled :=
    match max_fan with
    | Some m => MaxFanMode.eqb m MaxFanMode.ON
    | None => false
    end in
  let fan_mode := if max_fan_enabled then Some FanMode.MAX else fan_mode in
  speeds <- HpWmiInterface.get_fan_speeds (_hp_wmi self) fs ;;
  Ok (mkStatus cpu_temp gpu_temp fan_mode speeds max_fan_enabled
        (is_available self)).

End Status.

(** [mode_map.get(mode)] of [set_mode]. *)
Definition set_mode_map (mode : FanMode.t) : option PerformanceMode.t :=
  match mode with
  | FanMode.QUIET => Some PerformanceMode.QUIET
  | FanMode.BALANCED => Some PerformanceMode.BALANCED
  | FanMode.PERFORMANCE => Some PerformanceMode.PERFORMANCE
  | FanMode.MAX | FanMode.OFF => None
  end.

(** The statement that disables max fan before a normal mode is set; the
    value [set_max_fan] returns is dropped. *)
Definition clear_max_fan (self : t) (fs : sysfs) : result sysfs :=
  max_fan <- HpWmiInterface.get_max_fan (_hp_wmi self) fs ;;
  match max_fan with
  | Some MaxFanMode.ON =>
      r <- HpWmiInterface.set_max_fan (_hp_wmi self) MaxFanMode.OFF fs ;;
      Ok (snd r)
  | _ => Ok fs
  end.

Definition set_mode (self : t) (mode : FanMode.t) (fs : sysfs)
    : result (bool * sysfs) :=
  match mode with
  | FanMode.MAX => HpWmiInterface.set_max_fan (_hp_wmi self) MaxFanMode.ON fs
  | FanMode.OFF => HpWmiInterface.set_max_fan (_hp_wmi self) MaxFanMode.OFF fs
  | _ =>
      fs1 <- clear_max_fan self fs ;;
      match set_mode_map mode with
      | Some perf_mode => HpWmiInterface.set_mode (_hp_wmi self) perf_mode fs1
      | None => Ok (false, fs1)
      end
  end.

Definition set_max_fan (self : t) (enabled : bool) (fs : sysfs)
    : result (bool * sysfs) :=
  let mode := if enabled then MaxFanMode.ON else MaxFanMode.OFF in
  HpWmiInterface.set_max_fan (_hp_wmi self) mode fs.

Definition toggle_max_fan (self : t) (fs : sysfs) : result (bool * sysfs) :=
  current <- HpWmiInterface.get_max_fan (_hp_wmi self) fs ;;
  match current with
  | None => Ok (false, fs)
  | Some c =>
      let new_mode :=
        if MaxFanMode.eqb c MaxFanMode.ON then MaxFanMode.OFF else MaxFanMode.ON in
      HpWmiInterface.set_max_fan (_hp_wmi self) new_mode fs
  end.

Section Diagnostics.

Variable nvidia_smi : result (option float).

(** The dictionary of [get_diagnostics]: the system information, and
    under "temperatures" the CPU and GPU picks and the label, device and
    temperature of every reading. *)
Record Diagnostics : Type := mkDiagnostics {
  hp_wmi : HpWmiInterface.SystemInfo;
  cpu : option float;
  gpu : option float;
  all : list (string * string * float)
}.

Definition get_diagnostics (self : t) (fs : sysfs) : result Diagnostics :=
  info <- HpWmiInterface.get_system_info (_hp_wmi self) fs ;;
  cpu <- TemperatureMonitor.get_cpu_temperature (_temp_monitor self) fs ;;
  gpu <- TemperatureMonitor.get_gpu_temperature nvidia_smi (_temp_monitor self) fs ;;
  readings <- TemperatureMonitor.get_all_temperatures (_temp_monitor self) fs ;;
  Ok (mkDiagnostics info cpu gpu
        (map (fun r => (label r, device r, temperature r)) readings)).

End Diagnostics.

End FanController.

(** ** The process: module singletons and the console *)

(** What a run of the program owns beside the sysfs tree: the lines
    printed so far and the three lazily built module singletons.  (Log
    records go to the logging handlers and are not part of it.) *)
Record World : Type := mkWorld {
  tree : sysfs;
  stdout : list string;
  the_hp_wmi : option HpWmiInterface.t;
  the_temp_monitor : option TemperatureMonitor.t;
  the_fan_controller : option FanController.t
}.

(** A fresh process on a tree. *)
Definition boot (fs : sysfs) : World := mkWorld fs [] None None None.

(** Code that runs in a world and returns, or raises. *)
Definition M (A : Type) : Type := World -> result (A * World).

Definition ret {A : Type} (a : A) : M A := fun w => Ok (a, w).

Definition bindM {A B : Type} (c : M A) (k : A -> M B) : M B :=
  fun w =>
    match c w with
    | Ok (a, w') => k a w'
    | Raise e => Raise e
    end.

Notation "x <-- c ;;; k" := (bindM c (fun x => k))
  (at level 61, c at next level, right associativity).
Notation "c ;;; k" := (bindM c (fun _ => k))
  (at level 61, right associativity).

(** [print(line)]. *)
Definition print (line : string) : M unit :=
  fun w =>
    Ok (tt, mkWorld (tree w) (stdout w ++ [line])%list (the_hp_wmi w)
              (the_temp_monitor w) (the_fan_controller w)).

(** A method that reads the tree. *)
Definition reading {A : Type} (f : sysfs -> result A) : M A :=
  fun w => a <- f (tree w) ;; Ok (a, w).

(** A method that may write the tree and returns its success flag. *)
Definition writing (f : sysfs -> result (bool * sysfs)) : M bool :=
  fun w =>
    r <- f (tree w) ;;
    Ok (fst r, mkWorld (snd r) (stdout w) (the_hp_wmi w)
                 (the_temp_monitor w) (the_fan_controller w)).

(** [hp_wmi.get_hp_wmi]. *)
Definition get_hp_wmi : M HpWmiInterface.t :=
  fun w =>
    match the_hp_wmi w with
    | Some hp => Ok (hp, w)
    | None =>
        hp <- HpWmiInterface.__init__ (tree w) ;;
        Ok (hp, mkWorld (tree w) (stdout w) (Some hp)
                  (the_temp_monitor w) (the_fan_controller w))
    end.

(** [temperature.get_temperature_monitor]. *)
Definition get_temperature_monitor : M TemperatureMonitor.t :=
  fun w =>
    match the_temp_monitor w with
    | Some mon => Ok (mon, w)
    | None =>
        mon <- TemperatureMonitor.__init__ (tree w) ;;
        Ok (mon, mkWorld (tree w) (stdout w) (the_hp_wmi w)
                   (Some mon) (the_fan_controller w))
    end.

(** [fan_control.get_fan_controller]; the constructor of the controller
    takes the two singletons above. *)
Definition get_fan_controller : M FanController.t :=
  fun w =>
    match the_fan_controller w with
    | Some controller => Ok (controller, w)
    | None =>
        (hp <-- get_hp_wmi ;;;
         mon <-- get_temperature_monitor ;;;
         fun w' =>
           let controller := FanController.mk hp mon in
           Ok (controller, mkWorld (tree w') (stdout w') (the_hp_wmi w')
                             (the_temp_monitor w') (Some controller))) w
    end.

(** ** main.py *)

Module Main.

(** [mode.value]. *)
Definition FanMode_value (mode : FanMode.t) : string :=
  match mode with
  | FanMode.QUIET => "Quiet"
  | FanMode.BALANCED => "Balanced"
  | FanMode.PERFORMANCE => "Performance"
  | FanMode.MAX => "Max Fan"
  | FanMode.OFF => "Fans Off"
  end.

(** The keys of [mode_map], in the order of the dictionary. *)
Definition mode_names : list string :=
  ["quiet"; "balanced"; "performance"; "max"; "off"; "auto"].

(** [mode_map.get(key)]. *)
Definition mode_map (key : string) : option FanMode.t :=
  if key =? "quiet" then Some FanMode.QUIET
  else if key =? "balanced" then Some FanMode.BALANCED
  else if key =? "performance" then Some FanMode.PERFORMANCE
  else if key =? "max" then Some FanMode.MAX
  else if key =? "off" then Some FanMode.OFF
  else if key =? "auto" then Some FanMode.OFF
  else None.

Definition set_mode (mode_str : string) : M Z :=
  controller <-- get_fan_controller ;;;
  match mode_map (Str.lower mode_str) with
  | None =>
      print ("❌ Unknown mode: " ++ mode_str) ;;;
      print ("   Valid modes: " ++ String.concat ", " mode_names) ;;;
      ret 1%Z
  | Some mode =>
      print ("Setting fan mode to " ++ FanMode_value mode ++ "...") ;;;
      ok <-- writing (FanController.set_mode controller mode) ;;;
      if ok then
        print ("✅ Successfully set mode to " ++ FanMode_value mode) ;;;
        ret 0%Z
      else
        print "❌ Failed to set mode (try running with sudo)" ;;;
        ret 1%Z
  end.

Definition set_max_fan (enabled_str : string) : M Z :=
  controller <-- get_fan_controller ;;;
  let enabled := Str.mem (Str.lower enabled_str) ["on"; "1"; "true"; "yes"] in
  print ((if enabled then "Enabling" else "Disabling") ++ " max fan...") ;;;
  ok <-- writing (FanController.set_max_fan controller enabled) ;;;
  if ok then
    print ("✅ Max fan " ++ (if enabled then "enabled" else "disabled")) ;;;
    ret 0%Z
  else
    print "❌ Failed to set max fan (try running with sudo)" ;;;
    ret 1%Z.

(** The arguments as [parser.parse_args()] returns them. *)
Record Args : Type := mkArgs {
  status : bool;
  mode : option string;
  max_fan : option string;
  diagnostics : bool;
  no_gui : bool;
  verbose : bool;
  quiet : bool
}.

Section Dispatch.

(** The three commands whose text is made by float formatting, JSON and
    GTK: what they print and return is left open. *)
Variables print_status print_diagnostics run_gui_mode : M Z.

(** [main] from the parsed arguments on.  ([setup_logging] sets the level
    of the log handlers only.) *)
Definition main (args : Args) : M Z :=
  if diagnostics args then print_diagnostics
  else if status args then print_status
  else
    after_mode <--
      (if truthy (mode args) then
         match mode args with
         | Some m =>
             result <-- set_mode m ;;;
             ret (if no_gui args then Some result else None)
         | None => ret None
         end
       else ret None) ;;;
    match after_mode with
    | Some result => ret result
    | None =>
        after_max_fan <--
          (if truthy (max_fan args) then
             match max_fan args with
             | Some m =>
                 result <-- set_max_fan m ;;;
                 ret (if no_gui args then Some result else None)
             | None => ret None
             end
           else ret None) ;;;
        match after_max_fan with
        | Some result => ret result
        | None =>
            if negb (no_gui args) &&
               negb (truthy (mode args) || truthy (max_fan args)
                     || status args || diagnostics args)
            then run_gui_mode
            else ret 0%Z
        end
    end.

End Dispatch.

End Main.

(** ** Notions used to state the properties *)

Definition fmap {A B : Type} (f : A -> B) (c : result A) : result B :=
  match c with
  | Ok a => Ok (f a)
  | Raise e => Raise e
  end.

(** The fan mode that a status query reports. *)
Definition reported_fan_mode (nvidia_smi : result (option float))
    (self : FanController.t) (fs : sysfs) : result (option FanMode.t) :=
  fmap fan_mode (FanController.get_status nvidia_smi self fs).

(** A status query that reports fan mode [m] as soon as its sensor summary
    is through (the summary is the one step of the query that can raise). *)
Definition after_sensors (nvidia_smi : result (option float))
    (self : FanController.t) (fs : sysfs) (m : option FanMode.t)
    : result (option FanMode.t) :=
  fmap (fun _ => m)
    (TemperatureMonitor.get_summary nvidia_smi (FanController._temp_monitor self) fs).

(** The file behind BoostState holds the integer [v]: the HP hwmon
    device was found, and its [pwm1_enable] is a readable file whose text
    parses to [v]. *)
Definition pwm1_enable_holds (hw : HpWmiInterface.t) (fs : sysfs) (v : Z) : Prop :=
  exists path text w,
    HpWmiInterface._hwmon_hp_wmi_path hw = Some path /\
    path <> "" /\
    Sysfs.lookup (Path.join path "pwm1_enable") fs = Some (File text true w) /\
    py_int (Str.strip text) = Ok v.

Definition nl : string := String (ascii_of_nat 10) EmptyString.

(** An attribute file as the kernel serves it: the token and a newline. *)
Definition attr (token : string) : node := File (token ++ nl) true true.

(** An OMEN laptop to run the program on: the platform profile and its
    choices, the HP hwmon device with the boost switch and a fan, a CPU
    sensor and an AMD GPU with two channels. *)
Definition laptop (profile choices : string) (pwm1_enable : node) : sysfs :=
  [ ("/sys/firmware/acpi/platform_profile", attr profile);
    ("/sys/firmware/acpi/platform_profile_choices", attr choices);
    ("/sys/devices/platform/hp-wmi", Dir);
    ("/sys/devices/platform/hp-wmi/hwmon", Dir);
    ("/sys/devices/platform/hp-wmi/hwmon/hwmon5", Dir);
    ("/sys/devices/platform/hp-wmi/hwmon/hwmon5/pwm1_enable", pwm1_enable);
    ("/sys/devices/platform/hp-wmi/hwmon/hwmon5/fan1_input", attr "2300");
    ("/sys/class/hwmon", Dir);
    ("/sys/class/hwmon/hwmon0", Dir);
    ("/sys/class/hwmon/hwmon0/name", attr "coretemp");
    ("/sys/class/hwmon/hwmon0/temp1_input", attr "45123");
    ("/sys/class/hwmon/hwmon0/temp1_label", attr "Package id 0");
    ("/sys/class/hwmon/hwmon0/temp1_crit", attr "100000");
    ("/sys/class/hwmon/hwmon0/temp1_max", attr "84000");
    ("/sys/class/hwmon/hwmon1", Dir);
    ("/sys/class/hwmon/hwmon1/name", attr "amdgpu");
    ("/sys/class/hwmon/hwmon1/temp1_input", attr "60000");
    ("/sys/class/hwmon/hwmon1/temp1_label", attr "edge");
    ("/sys/class/hwmon/hwmon1/temp2_input", attr "75000");
    ("/sys/class/hwmon/hwmon1/temp2_label", attr "junction") ].

Definition laptop_hw : HpWmiInterface.t :=
  HpWmiInterface.mk true true (Some "/sys/devices/platform/hp-wmi/hwmon/hwmon5").

Definition laptop_monitor : TemperatureMonitor.t :=
  TemperatureMonitor.mk
    [ ("coretemp", "/sys/class/hwmon/hwmon0");
      ("amdgpu", "/sys/class/hwmon/hwmon1") ].

Definition laptop_controller : FanController.t :=
  FanController.mk laptop_hw laptop_monitor.

(** The path of the boost switch of a discovered HP hwmon device. *)
Definition boost_file (hw : HpWmiInterface.t) (q : string) : Prop :=
  exists path,
    HpWmiInterface._hwmon_hp_wmi_path hw = Some path /\
    q = Path.join path "pwm1_enable".

(** A [set_mode] call that returns, leaves the platform profile node as
    it was, and changes no node but the boost switch; a call that reports
    failure changes nothing. *)
Definition touches_boost_only (self : FanController.t) (mode : FanMode.t)
    (fs : sysfs) : Prop :=
  exists ok fs',
    FanController.set_mode self mode fs = Ok (ok, fs') /\
    Sysfs.lookup HpWmiInterface.PLATFORM_PROFILE fs' =
      Sysfs.lookup HpWmiInterface.PLATFORM_PROFILE fs /\
    (forall q, ~ boost_file (FanController._hp_wmi self) q ->
       Sysfs.lookup q fs' = Sysfs.lookup q fs) /\
    (ok = false -> fs' = fs).

(** The laptop with max fan on, on a platform whose profile choices have
    no quiet tier. *)
Definition boosted_laptop : sysfs :=
  laptop "balanced" "balanced performance" (attr "0").

(** The laptop with max fan on and a boost switch that this process may
    read but not write. *)
Definition stuck_laptop : sysfs :=
  laptop "balanced" "low-power balanced performance" (File ("0" ++ nl) true false).

(** A confined process: the HP platform device is there without a hwmon
    child of its own, and the name file of the one hwmon device may not
    be read. *)
Definition confined : sysfs :=
  [ ("/sys/devices/platform/hp-wmi", Dir);
    ("/sys/class/hwmon", Dir);
    ("/sys/class/hwmon/hwmon0", Dir);
    ("/sys/class/hwmon/hwmon0/name", File ("hp" ++ nl) false false) ].

(** The three tiers of the CPU resolution policy. *)
Definition cpu_device (r : TemperatureReading) : Prop :=
  In (device r) ["coretemp"; "k10temp"; "zenpower"].

Definition package_label (r : TemperatureReading) : Prop :=
  TemperatureMonitor.label_has "package" r = true \/
  TemperatureMonitor.label_has "tctl" r = true.

Definition cpu_label (r : TemperatureReading) : Prop :=
  TemperatureMonitor.label_has "cpu" r = true.

(** The readings of the two resolution examples. *)
Definition package_and_zone : list TemperatureReading :=
  [ mkReading "Package" "coretemp" 45%float None None;
    mkReading "zone0" "acpitz" 38%float None None ].

Definition edge_reading : TemperatureReading :=
  mkReading "edge" "amdgpu" 60%float None None.

Definition junction_reading : TemperatureReading :=
  mkReading "junction" "amdgpu" 75%float None None.

(** [value] is [raw / 1000.0]: the binary64 quotient of the float nearest
    to the integer [raw] by the float 1000.0. *)
Definition celsius_of (raw : Z) (value : float) : Prop :=
  exists f, float_of_int raw = Ok f /\ value = (f / 1000)%float.

(** The threshold [o] that goes with [file]: when the file can be read
    and holds an integer, the same conversion of that integer; nothing
    when the file is missing, cannot be read or does not hold an
    integer. *)
Definition threshold_is (fs : sysfs) (file : string) (o : option float) : Prop :=
  match Sysfs.read fs file with
  | Ok text =>
      match py_int (Str.strip text) with
      | Ok raw => exists value, celsius_of raw value /\ o = Some value
      | Raise _ => o = None
      end
  | Raise _ => o = None
  end.

(** The name a hwmon device declares, when its name file can be read. *)
Definition declared_name (fs : sysfs) (hwmon_dir : string) : option string :=
  match Sysfs.read fs (Path.join hwmon_dir "name") with
  | Ok text => Some (Str.strip text)
  | Raise _ => None
  end.

(** The dictionary of discovery: no key twice, and every path under the
    name that its device declares. *)
Definition devices_wf (fs : sysfs) (devices : Dict.t string) : Prop :=
  NoDup (map fst devices) /\
  forall name path, In (name, path) devices -> declared_name fs path = Some name.

(** Two hwmon devices that declare the same name. *)
Definition twin_sensors : sysfs :=
  [ ("/sys/class/hwmon", Dir);
    ("/sys/class/hwmon/hwmon0", Dir);
    ("/sys/class/hwmon/hwmon0/name", attr "coretemp");
    ("/sys/class/hwmon/hwmon0/temp1_input", attr "45000");
    ("/sys/class/hwmon/hwmon1", Dir);
    ("/sys/class/hwmon/hwmon1/name", attr "coretemp");
    ("/sys/class/hwmon/hwmon1/temp1_input", attr "50000") ].

(** The boost switch of the HP hwmon device is a file this process may
    read. *)
Definition boost_readable (hw : HpWmiInterface.t) (fs : sysfs) : Prop :=
  exists path text w,
    HpWmiInterface._hwmon_hp_wmi_path hw = Some path /\
    Sysfs.lookup (Path.join path "pwm1_enable") fs = Some (File text true w).

(** The other max fan mode. *)
Definition toggled (m : MaxFanMode.t) : MaxFanMode.t :=
  match m with
  | MaxFanMode.ON => MaxFanMode.OFF
  | MaxFanMode.OFF => MaxFanMode.ON
  end.

(** The items of a scan whose body returned, in scan order. *)
Definition returned {A B : Type} (body : A -> result B) (items : list A) : list B :=
  flat_map (fun x => match body x with Ok b => [b] | Raise _ => [] end) items.

(** A reading of one of the three GPU devices. *)
Definition gpu_device (r : TemperatureReading) : Prop :=
  In (device r) ["amdgpu"; "nvidia"; "nouveau"].

(** The laptop without the file that lists the profile choices. *)
Definition no_choices : sysfs :=
  [ ("/sys/firmware/acpi/platform_profile", attr "balanced");
    ("/sys/devices/platform/hp-wmi", Dir) ].

(** A machine with an HP-named hwmon device and no hp-wmi platform
    device. *)
Definition no_platform_device : sysfs :=
  [ ("/sys/class/hwmon", Dir);
    ("/sys/class/hwmon/hwmon0", Dir);
    ("/sys/class/hwmon/hwmon0/name", attr "hp");
    ("/sys/class/hwmon/hwmon0/pwm1_enable", attr "0") ].

(** The HP hwmon device found by its name among the class devices. *)
Definition hp_by_name : sysfs :=
  [ ("/sys/devices/platform/hp-wmi", Dir);
    ("/sys/class/hwmon", Dir);
    ("/sys/class/hwmon/hwmon0", Dir);
    ("/sys/class/hwmon/hwmon0/name", attr "coretemp");
    ("/sys/class/hwmon/hwmon1", Dir);
    ("/sys/class/hwmon/hwmon2", Dir);
    ("/sys/class/hwmon/hwmon2/name", attr "HP WMI sensors");
    ("/sys/class/hwmon/hwmon2/fan1_input", attr "2300");
    ("/sys/class/hwmon/hwmon2/fan2_input", attr "n/a");
    ("/sys/class/hwmon/hwmon3", Dir);
    ("/sys/class/hwmon/hwmon3/name", attr "hp_other") ].

(** A CPU sensor with one channel that cannot be parsed and one whose
    label may not be read. *)
Definition flaky_sensor : sysfs :=
  [ ("/sys/class/hwmon", Dir);
    ("/sys/class/hwmon/hwmon0", Dir);
    ("/sys/class/hwmon/hwmon0/name", attr "k10temp");
    ("/sys/class/hwmon/hwmon0/temp1_input", attr "n/a");
    ("/sys/class/hwmon/hwmon0/temp2_input", attr "51000");
    ("/sys/class/hwmon/hwmon0/temp2_label", File ("Tctl" ++ nl) false false);
    ("/sys/class/hwmon/hwmon0/temp3_input", attr "47500");
    ("/sys/class/hwmon/hwmon0/temp3_crit", attr "hot") ].

(** A write operation of the controller that returns, keeps the set of
    nodes of the tree, and leaves every node other than the platform
    profile file and the boost switch as it was. *)
Definition contained (self : FanController.t) (fs : sysfs)
    (outcome : result (bool * sysfs)) : Prop :=
  exists ok fs',
    outcome = Ok (ok, fs') /\
    map fst fs' = map fst fs /\
    forall q, q <> HpWmiInterface.PLATFORM_PROFILE ->
      ~ boost_file (FanController._hp_wmi self) q ->
      Sysfs.lookup q fs' = Sysfs.lookup q fs.

(** A hwmon device whose name file reads as a name with "hp" in it, in
    any letter case. *)
Definition names_hp (fs : sysfs) (hwmon_dir : string) : Prop :=
  exists text,
    Sysfs.read fs (Path.join hwmon_dir "name") = Ok text /\
    Str.contains "hp" (Str.lower text) = true.

(** A hwmon device that the scan for the HP device passes over: it has no
    name file, or one that reads as a name without "hp". *)
Definition passed_over (fs : sysfs) (hwmon_dir : string) : Prop :=
  Sysfs.exists_ fs (Path.join hwmon_dir "name") = false \/
  exists text,
    Sysfs.read fs (Path.join hwmon_dir "name") = Ok text /\
    Str.contains "hp" (Str.lower text) = false.

(** * Properties *)

(** ** The error monad *)

Lemma bind_Ok_inv {A B : Type} (c : result A) (k : A -> result B) (b : B) :
  bind c k = Ok b -> exists a, c = Ok a /\ k a = Ok b.
Proof.
  destruct c as [a|e]; simpl; intros H; [eauto | discriminate].
Qed.

Lemma try_except_Ok_inv {A : Type} (body handler : result A) catches (a : A) :
  try_except body catches handler = Ok a ->
  body = Ok a \/ (exists e, body = Raise e /\ catches e = true /\ handler = Ok a).
Proof.
  unfold try_except. destruct body as [x|e]; [now left|].
  destruct (catches e) eqn:C; [right; eauto | discriminate].
Qed.

(** A body that raises caught classes only, under a handler that returns,
    returns. *)
Lemma try_except_total {A : Type} (body handler : result A) catches :
  (forall e, body = Raise e -> catches e = true) ->
  (exists h, handler = Ok h) ->
  exists a, try_except body catches handler = Ok a.
Proof.
  intros Hc [h Hh]. unfold try_except. destruct body as [x|e]; [eauto|].
  rewrite (Hc e eq_refl). eauto.
Qed.

Ltac inv_bind H :=
  let a := fresh "a" in
  let Ha := fresh "Ha" in
  apply bind_Ok_inv in H; destruct H as [a [Ha H]].

(** ** Strings and paths *)

Lemma append_assoc (a b c : string) : (a ++ b) ++ c = a ++ (b ++ c).
Proof.
  induction a as [|x a IH]; simpl; [reflexivity | now rewrite IH].
Qed.

Lemma endswith_refl (s : string) : Str.endswith s s = true.
Proof.
  destruct s; simpl; [reflexivity|].
  now rewrite Ascii.eqb_refl, String.eqb_refl.
Qed.

Lemma endswith_append (p suf : string) : Str.endswith suf (p ++ suf) = true.
Proof.
  induction p as [|c p IH]; simpl.
  - apply endswith_refl.
  - rewrite IH. apply orb_true_r.
Qed.

(** Whatever the directory, a joined path ends with the joined name. *)
Lemma join_endswith (a b : string) : Str.endswith b (Path.join a b) = true.
Proof.
  unfold Path.join.
  destruct (prefix "/" b); [apply endswith_refl|].
  destruct ((a =? "") || Str.endswith "/" a).
  - apply endswith_append.
  - rewrite <- append_assoc. apply endswith_append.
Qed.

Lemma join_neq (a b p : string) : Str.endswith b p = false -> Path.join a b <> p.
Proof.
  intros H E. rewrite <- E, join_endswith in H. discriminate.
Qed.

Lemma pwm1_enable_not_profile (path : string) :
  Path.join path "pwm1_enable" <> HpWmiInterface.PLATFORM_PROFILE.
Proof. apply join_neq. reflexivity. Qed.

Lemma pwm1_enable_not_choices (path : string) :
  Path.join path "pwm1_enable" <> HpWmiInterface.PLATFORM_PROFILE_CHOICES.
Proof. apply join_neq. reflexivity. Qed.

Lemma mem_In (x : string) (l : list string) : Str.mem x l = true <-> In x l.
Proof.
  unfold Str.mem. rewrite existsb_exists. split.
  - intros [y [Hy E]]. apply String.eqb_eq in E. now subst.
  - intros H. exists x. split; [assumption | apply String.eqb_refl].
Qed.

(** ** The sysfs tree: reads, writes and their frame *)

Lemma read_raises_IOError fs p e : Sysfs.read fs p = Raise e -> IOError e = true.
Proof.
  unfold Sysfs.read. destruct (Sysfs.lookup p fs) as [[|text r w]|];
    try destruct r; intros H; inversion H; reflexivity.
Qed.

Lemma write_raises_IOError fs p v e :
  Sysfs.write fs p v = Raise e -> IOError e = true.
Proof.
  unfold Sysfs.write. destruct (Sysfs.lookup p fs) as [[|text r w]|];
    try destruct w; intros H; inversion H; reflexivity.
Qed.

Lemma py_int_raises_ValueError text e : py_int text = Raise e -> e = ValueError.
Proof.
  unfold py_int.
  match goal with |- match ?x with _ => _ end = _ -> _ => destruct x end;
    intros H; inversion H; reflexivity.
Qed.

Lemma lookup_store_other p q v fs :
  p <> q -> Sysfs.lookup q (Sysfs.store p v fs) = Sysfs.lookup q fs.
Proof.
  intros Hpq. induction fs as [|[k n] fs IH]; simpl; [reflexivity|].
  destruct (k =? p) eqn:Ekp.
  - apply String.eqb_eq in Ekp. subst k.
    destruct n; simpl; destruct (p =? q) eqn:Epq; try reflexivity;
      apply String.eqb_eq in Epq; contradiction.
  - simpl. destruct (k =? q); [reflexivity | apply IH].
Qed.

Lemma lookup_store_same p v fs text r w :
  Sysfs.lookup p fs = Some (File text r w) ->
  Sysfs.lookup p (Sysfs.store p v fs) = Some (File v r w).
Proof.
  induction fs as [|[k n] fs IH]; simpl; [discriminate|].
  destruct (k =? p) eqn:Ekp.
  - intros H. inversion H. subst n. simpl. now rewrite Ekp.
  - intros H. simpl. rewrite Ekp. now apply IH.
Qed.

Lemma store_paths p v fs : map fst (Sysfs.store p v fs) = map fst fs.
Proof.
  induction fs as [|[k n] fs IH]; simpl; [reflexivity|].
  destruct (k =? p); [destruct n; reflexivity | simpl; now rewrite IH].
Qed.

(** A write changes the node it is aimed at and nothing else. *)
Lemma write_frame fs p v fs' q :
  Sysfs.write fs p v = Ok fs' -> p <> q -> Sysfs.lookup q fs' = Sysfs.lookup q fs.
Proof.
  unfold Sysfs.write. destruct (Sysfs.lookup p fs) as [[|text r w]|];
    try discriminate.
  destruct w; [|discriminate]. intros H Hpq. inversion H.
  now apply lookup_store_other.
Qed.

Lemma exists_frame fs fs' q :
  Sysfs.lookup q fs' = Sysfs.lookup q fs -> Sysfs.exists_ fs' q = Sysfs.exists_ fs q.
Proof. unfold Sysfs.exists_. now intros ->. Qed.

Lemma read_frame fs fs' q :
  Sysfs.lookup q fs' = Sysfs.lookup q fs -> Sysfs.read fs' q = Sysfs.read fs q.
Proof. unfold Sysfs.read. now intros ->. Qed.

(** ** hp_wmi.py never raises on a file error *)

Lemma get_available_profiles_total fs :
  exists l, HpWmiInterface.get_available_profiles fs = Ok l.
Proof.
  unfold HpWmiInterface.get_available_profiles.
  destruct (negb _); [eauto|].
  apply try_except_total; [|eauto].
  intros e H. destruct (Sysfs.read fs _) eqn:R; simpl in H; [discriminate|].
  inversion H; subst. eapply read_raises_IOError; eassumption.
Qed.

Lemma get_current_mode_read (self : HpWmiInterface.t) fs text w :
  HpWmiInterface._platform_profile_available self = true ->
  Sysfs.lookup HpWmiInterface.PLATFORM_PROFILE fs = Some (File text true w) ->
  HpWmiInterface.get_current_mode self fs =
    Ok (Some (HpWmiInterface.profile_map (Str.strip text))).
Proof.
  intros Ha Hl. unfold HpWmiInterface.get_current_mode, Sysfs.read.
  rewrite Ha, Hl. reflexivity.
Qed.

Lemma get_current_mode_total (self : HpWmiInterface.t) fs :
  exists o, HpWmiInterface.get_current_mode self fs = Ok o.
Proof.
  unfold HpWmiInterface.get_current_mode.
  destruct (negb _); [eauto|].
  apply try_except_total; [|eauto].
  intros e H. destruct (Sysfs.read fs _) eqn:R; simpl in H; [discriminate|].
  inversion H; subst. eapply read_raises_IOError; eassumption.
Qed.

Lemma get_max_fan_total (self : HpWmiInterface.t) fs :
  exists o, HpWmiInterface.get_max_fan self fs = Ok o.
Proof.
  unfold HpWmiInterface.get_max_fan.
  destruct (HpWmiInterface._hwmon_hp_wmi_path self) as [path|]; [|eauto].
  destruct (negb (truthy _)); [eauto|].
  destruct (negb (Sysfs.exists_ _ _)); [eauto|].
  apply try_except_total; [|eauto].
  intros e H. destruct (Sysfs.read fs _) eqn:R; simpl in H.
  - destruct (py_int _) eqn:P; simpl in H; [discriminate|].
    inversion H; subst. apply py_int_raises_ValueError in P. now subst.
  - inversion H; subst. unfold IOError_or_ValueError.
    erewrite read_raises_IOError by eassumption. reflexivity.
Qed.

Lemma truthy_nonempty (path : string) : path <> "" -> truthy (Some path) = true.
Proof.
  intros H. simpl. destruct (path =? "") eqn:E; [|reflexivity].
  apply String.eqb_eq in E. contradiction.
Qed.

(** What [get_max_fan] reads when the file holds an integer. *)
Lemma get_max_fan_holds (hw : HpWmiInterface.t) fs v :
  pwm1_enable_holds hw fs v ->
  HpWmiInterface.get_max_fan hw fs =
    Ok (Some (if (v =? 0)%Z then MaxFanMode.ON else MaxFanMode.OFF)).
Proof.
  intros (path & text & w & Hp & Hne & Hl & Hv).
  unfold HpWmiInterface.get_max_fan. rewrite Hp, (truthy_nonempty _ Hne).
  unfold Sysfs.exists_, Sysfs.read. rewrite Hl. simpl. rewrite Hv. reflexivity.
Qed.

Lemma collect_total {A B : Type} (body : A -> result B) catches items :
  (forall x e, body x = Raise e -> catches e = true) ->
  exists l, collect body catches items = Ok l.
Proof.
  intros Hc. induction items as [|x items [l IH]]; simpl; [eauto|].
  destruct (body x) as [b|e] eqn:E.
  - rewrite IH. simpl. eauto.
  - rewrite (Hc _ _ E), IH. eauto.
Qed.

Lemma _read_fan_raises fs fan_file e :
  HpWmiInterface._read_fan fs fan_file = Raise e -> IOError_or_ValueError e = true.
Proof.
  unfold HpWmiInterface._read_fan, IOError_or_ValueError.
  destruct (Sysfs.read fs fan_file) eqn:R; simpl.
  2:{ intros H; inversion H; subst. now rewrite (read_raises_IOError _ _ _ R). }
  destruct (py_int _) eqn:P; simpl.
  2:{ intros H; inversion H; subst.
      apply py_int_raises_ValueError in P. subst. reflexivity. }
  destruct (Sysfs.exists_ fs _); simpl; [|discriminate].
  destruct (Sysfs.read fs (Str.replace _ _ _)) eqn:R2; simpl; [discriminate|].
  intros H; inversion H; subst. now rewrite (read_raises_IOError _ _ _ R2).
Qed.

Lemma _read_fans_from_hwmon_total fs hwmon_path :
  exists l, HpWmiInterface._read_fans_from_hwmon fs hwmon_path = Ok l.
Proof.
  apply collect_total. intros x e. apply _read_fan_raises.
Qed.

Lemma get_fan_speeds_total (self : HpWmiInterface.t) fs :
  exists l, HpWmiInterface.get_fan_speeds self fs = Ok l.
Proof.
  unfold HpWmiInterface.get_fan_speeds.
  assert (Hown : exists own,
    match HpWmiInterface._hwmon_hp_wmi_path self with
    | Some path =>
        if truthy (Some path) then HpWmiInterface._read_fans_from_hwmon fs path
        else Ok []
    | None => Ok []
    end = Ok own).
  { destruct (HpWmiInterface._hwmon_hp_wmi_path self) as [path|]; [|eauto].
    destruct (truthy _); [apply _read_fans_from_hwmon_total | eauto]. }
  destruct Hown as [own ->]. simpl.
  assert (Hoth : forall dirs, exists l,
    HpWmiInterface._other_fans self fs dirs = Ok l).
  { induction dirs as [|d dirs [l IH]]; simpl; [eauto|].
    destruct (negb _).
    - destruct (_read_fans_from_hwmon_total fs d) as [h ->]. simpl.
      rewrite IH. simpl. eauto.
    - eauto. }
  destruct (Hoth (Sysfs.glob fs (Path.join HpWmiInterface.HWMON_PATH "hwmon*")))
    as [l ->].
  simpl. eauto.
Qed.

(** ** What a status query reports *)

(** The fan mode of a status is decided by the profile read and the boost
    read alone. *)
Lemma reported_fan_mode_eq nvidia_smi (self : FanController.t) fs current max_fan :
  HpWmiInterface.get_current_mode (FanController._hp_wmi self) fs = Ok current ->
  HpWmiInterface.get_max_fan (FanController._hp_wmi self) fs = Ok max_fan ->
  reported_fan_mode nvidia_smi self fs =
    after_sensors nvidia_smi self fs
      (match max_fan with
       | Some MaxFanMode.ON => Some FanMode.MAX
       | _ => option_map FanController.status_mode_map current
       end).
Proof.
  intros Hc Hm. unfold reported_fan_mode, after_sensors, FanController.get_status.
  destruct (TemperatureMonitor.get_summary _ _ _) as [[cpu gpu]|e]; simpl;
    [|reflexivity].
  rewrite Hc. simpl. rewrite Hm. simpl.
  destruct (get_fan_speeds_total (FanController._hp_wmi self) fs) as [l ->].
  simpl. destruct max_fan as [[|]|]; destruct current; reflexivity.
Qed.

(** Max takes the display whatever the profile read gives. *)
Lemma max_overrides_profile nvidia_smi (self : FanController.t) fs :
  HpWmiInterface.get_max_fan (FanController._hp_wmi self) fs
    = Ok (Some MaxFanMode.ON) ->
  reported_fan_mode nvidia_smi self fs =
    after_sensors nvidia_smi self fs (Some FanMode.MAX).
Proof.
  intros Hon.
  destruct (get_current_mode_total (FanController._hp_wmi self) fs) as [cur Hc].
  now rewrite (reported_fan_mode_eq _ _ _ _ _ Hc Hon).
Qed.

Example laptop_controller_init profile choices pwm1_enable :
  FanController.__init__ (laptop profile choices pwm1_enable) = Ok laptop_controller.
Proof. reflexivity. Qed.

(** C1. In every hardware state whose [pwm1_enable] file holds 0, the
    status query reports fan mode Max, whatever the platform profile file
    holds (one of the three profile values, any other text, or nothing
    readable); a status carries at most one fan mode.  The query reports
    as soon as its sensor summary is through. *)
Theorem boost_on_reports_max nvidia_smi (self : FanController.t) (fs : sysfs) :
  pwm1_enable_holds (FanController._hp_wmi self) fs 0 ->
  reported_fan_mode nvidia_smi self fs =
    after_sensors nvidia_smi self fs (Some FanMode.MAX).
Proof.
  intros Hon. apply max_overrides_profile.
  exact (get_max_fan_holds _ _ _ Hon).
Qed.

Lemma boost_on_reports_max_witness :
  pwm1_enable_holds laptop_hw (laptop "performance" "balanced performance" (attr "0")) 0 /\
  reported_fan_mode (Ok None) laptop_controller
    (laptop "performance" "balanced performance" (attr "0")) = Ok (Some FanMode.MAX).
Proof.
  assert (H : pwm1_enable_holds laptop_hw
                (laptop "performance" "balanced performance" (attr "0")) 0).
  { exists "/sys/devices/platform/hp-wmi/hwmon/hwmon5", ("0" ++ nl), true.
    split; [reflexivity|]. split; [discriminate|].
    split; reflexivity. }
  split; [exact H|].
  rewrite (boost_on_reports_max (Ok None) laptop_controller _ H).
  vm_compute. reflexivity.
Defined.

(** C6. The profile-to-mode mapping of the status query, for every text
    read from the profile file (boost not reading as on, so that the
    profile is what shows): "low-power" and "quiet" both give Quiet,
    "balanced" gives Balanced, "performance" gives Performance, and every
    other text gives Balanced. *)
Theorem profile_to_mode nvidia_smi (self : FanController.t) (fs : sysfs) text w :
  HpWmiInterface._platform_profile_available (FanController._hp_wmi self) = true ->
  Sysfs.lookup HpWmiInterface.PLATFORM_PROFILE fs = Some (File text true w) ->
  HpWmiInterface.get_max_fan (FanController._hp_wmi self) fs
    <> Ok (Some MaxFanMode.ON) ->
  exists mode,
    reported_fan_mode nvidia_smi self fs =
      after_sensors nvidia_smi self fs (Some mode) /\
    let profile := Str.strip text in
    (profile = "low-power" \/ profile = "quiet" -> mode = FanMode.QUIET) /\
    (profile = "balanced" -> mode = FanMode.BALANCED) /\
    (profile = "performance" -> mode = FanMode.PERFORMANCE) /\
    (profile <> "low-power" -> profile <> "quiet" -> profile <> "balanced" ->
     profile <> "performance" -> mode = FanMode.BALANCED).
Proof.
  intros Ha Hl Hoff.
  pose proof (get_current_mode_read _ _ _ _ Ha Hl) as Hc.
  destruct (get_max_fan_total (FanController._hp_wmi self) fs) as [mf Hm].
  exists (FanController.status_mode_map (HpWmiInterface.profile_map (Str.strip text))).
  split.
  - rewrite (reported_fan_mode_eq _ _ _ _ _ Hc Hm).
    destruct mf as [[|]|]; try reflexivity. now rewrite Hm in Hoff.
  - cbv zeta. unfold HpWmiInterface.profile_map.
    repeat split.
    + intros [-> | ->]; reflexivity.
    + intros ->; reflexivity.
    + intros ->; reflexivity.
    + intros H1 H2 H3 H4.
      apply String.eqb_neq in H1, H2, H3, H4. now rewrite H1, H2, H3, H4.
Qed.

Lemma profile_to_mode_witness :
  reported_fan_mode (Ok None) laptop_controller
    (laptop "quiet" "quiet balanced performance" (attr "2")) = Ok (Some FanMode.QUIET).
Proof.
  destruct (profile_to_mode (Ok None) laptop_controller
              (laptop "quiet" "quiet balanced performance" (attr "2"))
              ("quiet" ++ nl) true eq_refl eq_refl)
    as [mode [Hr [Hq _]]].
  - vm_compute. discriminate.
  - rewrite Hr, (Hq (or_intror eq_refl)). vm_compute. reflexivity.
Defined.

(** ** Writes of the mode controller *)

Lemma not_boost_file hw path q :
  HpWmiInterface._hwmon_hp_wmi_path hw = Some path ->
  ~ boost_file hw q -> Path.join path "pwm1_enable" <> q.
Proof.
  intros Hp Hq E. apply Hq. exists path. split; [assumption | now symmetry].
Qed.

Lemma profile_not_boost_file hw : ~ boost_file hw HpWmiInterface.PLATFORM_PROFILE.
Proof.
  intros [path [_ E]]. symmetry in E. revert E. apply pwm1_enable_not_profile.
Qed.

Lemma choices_not_boost_file hw :
  ~ boost_file hw HpWmiInterface.PLATFORM_PROFILE_CHOICES.
Proof.
  intros [path [_ E]]. symmetry in E. revert E. apply pwm1_enable_not_choices.
Qed.

(** [set_max_fan] always returns; it changes the boost switch at most, and
    nothing when it reports failure. *)
Lemma set_max_fan_frame (hw : HpWmiInterface.t) mode fs :
  exists ok fs',
    HpWmiInterface.set_max_fan hw mode fs = Ok (ok, fs') /\
    (forall q, ~ boost_file hw q -> Sysfs.lookup q fs' = Sysfs.lookup q fs) /\
    (ok = false -> fs' = fs).
Proof.
  unfold HpWmiInterface.set_max_fan.
  destruct (HpWmiInterface._hwmon_hp_wmi_path hw) as [path|] eqn:Hp;
    [|exists false, fs; auto].
  destruct (negb (truthy _)); [exists false, fs; auto|].
  destruct (negb (Sysfs.exists_ _ _)); [exists false, fs; auto|].
  destruct (Sysfs.write fs (Path.join path "pwm1_enable")
              (if MaxFanMode.eqb mode MaxFanMode.ON then "0" else "2"))
    as [fs'|e] eqn:W; simpl.
  - exists true, fs'. split; [reflexivity|]. split; [|discriminate].
    intros q Hq. eapply write_frame; [eassumption|].
    eapply not_boost_file; eassumption.
  - rewrite (write_raises_IOError _ _ _ _ W). exists false, fs. auto.
Qed.

(** [hp_wmi.set_mode] always returns; it changes the platform profile at
    most, and nothing when it reports failure. *)
Lemma hp_set_mode_frame (hw : HpWmiInterface.t) mode fs :
  exists ok fs',
    HpWmiInterface.set_mode hw mode fs = Ok (ok, fs') /\
    (forall q, HpWmiInterface.PLATFORM_PROFILE <> q ->
       Sysfs.lookup q fs' = Sysfs.lookup q fs) /\
    (ok = false -> fs' = fs).
Proof.
  unfold HpWmiInterface.set_mode.
  destruct (negb _); [exists false, fs; auto|].
  destruct (get_available_profiles_total fs) as [l ->]. simpl.
  destruct (HpWmiInterface.first_available _ l) as [profile|];
    [|exists false, fs; auto].
  destruct (negb (truthy _)); [exists false, fs; auto|].
  destruct (Sysfs.write fs HpWmiInterface.PLATFORM_PROFILE profile)
    as [fs'|e] eqn:W; simpl.
  - exists true, fs'. split; [reflexivity|]. split; [|discriminate].
    intros q Hq. eapply write_frame; eassumption.
  - rewrite (write_raises_IOError _ _ _ _ W). exists false, fs. auto.
Qed.

(** C7. [set_mode(MAX)] and [set_mode(OFF)] write the boost switch only:
    from every prior state the call returns, the platform profile node
    after the call is the one before it, and so is every node other than
    the boost switch, whether the boost write succeeded or failed. *)
Theorem max_and_off_keep_profile (self : FanController.t) (fs : sysfs) :
  touches_boost_only self FanMode.MAX fs /\
  touches_boost_only self FanMode.OFF fs.
Proof.
  split.
  - destruct (set_max_fan_frame (FanController._hp_wmi self) MaxFanMode.ON fs)
      as (ok & fs' & E & Hf & Hk).
    exists ok, fs'. repeat split; try assumption.
    apply Hf, profile_not_boost_file.
  - destruct (set_max_fan_frame (FanController._hp_wmi self) MaxFanMode.OFF fs)
      as (ok & fs' & E & Hf & Hk).
    exists ok, fs'. repeat split; try assumption.
    apply Hf, profile_not_boost_file.
Qed.

(** The statement that disables max fan returns; it leaves every node but
    the boost switch, and the whole tree when boost did not read as on. *)
Lemma clear_max_fan_frame (self : FanController.t) fs :
  exists fs1,
    FanController.clear_max_fan self fs = Ok fs1 /\
    (forall q, ~ boost_file (FanController._hp_wmi self) q ->
       Sysfs.lookup q fs1 = Sysfs.lookup q fs) /\
    (HpWmiInterface.get_max_fan (FanController._hp_wmi self) fs
       <> Ok (Some MaxFanMode.ON) -> fs1 = fs) /\
    (HpWmiInterface.get_max_fan (FanController._hp_wmi self) fs
       = Ok (Some MaxFanMode.ON) ->
     fmap snd (HpWmiInterface.set_max_fan (FanController._hp_wmi self)
                 MaxFanMode.OFF fs) = Ok fs1).
Proof.
  unfold FanController.clear_max_fan.
  destruct (get_max_fan_total (FanController._hp_wmi self) fs) as [mf Hm].
  rewrite Hm. simpl.
  destruct mf as [[|]|]; try (exists fs; repeat split; auto; discriminate).
  destruct (set_max_fan_frame (FanController._hp_wmi self) MaxFanMode.OFF fs)
    as (ok & fs' & E & Hf & Hk).
  rewrite E. simpl. exists fs'. repeat split; auto.
  intros H. now contradiction H.
Qed.

Lemma get_available_profiles_frame fs fs' :
  Sysfs.lookup HpWmiInterface.PLATFORM_PROFILE_CHOICES fs' =
    Sysfs.lookup HpWmiInterface.PLATFORM_PROFILE_CHOICES fs ->
  HpWmiInterface.get_available_profiles fs' =
    HpWmiInterface.get_available_profiles fs.
Proof.
  intros H. unfold HpWmiInterface.get_available_profiles.
  now rewrite (exists_frame _ _ _ H), (read_frame _ _ _ H).
Qed.

Lemma first_available_none variations available :
  (forall c, In c variations -> ~ In c available) ->
  HpWmiInterface.first_available variations available = None.
Proof.
  induction variations as [|v vs IH]; simpl; intros H; [reflexivity|].
  destruct (Str.mem v available) eqn:M.
  - apply mem_In in M. exfalso. apply (H v); auto.
  - apply IH. intros c Hc. apply H. now right.
Qed.

(** C2, as the code has it. For a target among Quiet, Balanced and
    Performance, when no candidate of the target is among the profiles
    the platform advertises, [set_mode] returns failure and the platform
    profile node is the one before the call; no node but the boost switch
    is written, and none at all when boost did not read as on.  A boost
    that read as on has been through the write that clears it by then. *)
Theorem no_legal_candidate_fails (self : FanController.t) (fs : sysfs)
    (mode : FanMode.t) (perf : PerformanceMode.t) (available : list string) :
  FanController.set_mode_map mode = Some perf ->
  HpWmiInterface.get_available_profiles fs = Ok available ->
  (forall c, In c (HpWmiInterface.profile_variations perf) -> ~ In c available) ->
  exists fs',
    FanController.set_mode self mode fs = Ok (false, fs') /\
    Sysfs.lookup HpWmiInterface.PLATFORM_PROFILE fs' =
      Sysfs.lookup HpWmiInterface.PLATFORM_PROFILE fs /\
    (forall q, ~ boost_file (FanController._hp_wmi self) q ->
       Sysfs.lookup q fs' = Sysfs.lookup q fs) /\
    (HpWmiInterface.get_max_fan (FanController._hp_wmi self) fs
       <> Ok (Some MaxFanMode.ON) -> fs' = fs) /\
    (HpWmiInterface.get_max_fan (FanController._hp_wmi self) fs
       = Ok (Some MaxFanMode.ON) ->
     fmap snd (HpWmiInterface.set_max_fan (FanController._hp_wmi self)
                 MaxFanMode.OFF fs) = Ok fs').
Proof.
  intros Hmap Hav Hnone.
  destruct (clear_max_fan_frame self fs) as (fs1 & Hc & Hf & Hoff & Hon).
  exists fs1.
  assert (E : FanController.set_mode self mode fs = Ok (false, fs1)).
  { assert (Hs : FanController.set_mode self mode fs =
              bind (FanController.clear_max_fan self fs)
                (fun fs1 => HpWmiInterface.set_mode (FanController._hp_wmi self)
                              perf fs1)).
    { destruct mode; simpl in Hmap; inversion Hmap; reflexivity. }
    rewrite Hs, Hc. simpl. unfold HpWmiInterface.set_mode.
    destruct (negb _); [reflexivity|].
    rewrite (get_available_profiles_frame fs fs1
               (Hf _ (choices_not_boost_file _))), Hav.
    simpl. now rewrite (first_available_none _ _ Hnone). }
  repeat split; auto.
  apply Hf, profile_not_boost_file.
Qed.

Lemma no_legal_candidate_fails_witness :
  exists fs',
    FanController.set_mode laptop_controller FanMode.QUIET
      (laptop "balanced" "balanced performance" (attr "2")) = Ok (false, fs') /\
    fs' = laptop "balanced" "balanced performance" (attr "2").
Proof.
  destruct (no_legal_candidate_fails laptop_controller
              (laptop "balanced" "balanced performance" (attr "2"))
              FanMode.QUIET PerformanceMode.QUIET ["balanced"; "performance"]
              eq_refl eq_refl)
    as (fs' & E & _ & _ & Hoff & _).
  - intros c [<- | [<- | []]] [H | [H | []]]; discriminate.
  - exists fs'. split; [exact E|]. apply Hoff. vm_compute. discriminate.
Defined.

(** The claim C2 as the spec words it fails on the laptop with max fan on:
    the platform advertises neither "low-power" nor "quiet", the call
    returns failure, and the boost switch has gone from on to off. *)
Lemma quiet_failure_clears_boost :
  HpWmiInterface.get_available_profiles boosted_laptop
    = Ok ["balanced"; "performance"] /\
  HpWmiInterface.get_max_fan laptop_hw boosted_laptop = Ok (Some MaxFanMode.ON) /\
  exists fs',
    FanController.set_mode laptop_controller FanMode.QUIET boosted_laptop
      = Ok (false, fs') /\
    HpWmiInterface.get_max_fan laptop_hw fs' = Ok (Some MaxFanMode.OFF) /\
    fs' <> boosted_laptop.
Proof.
  split; [reflexivity|]. split; [reflexivity|].
  eexists. split; [vm_compute; reflexivity|].
  split; [reflexivity|].
  intros H. apply (f_equal (Sysfs.lookup
    "/sys/devices/platform/hp-wmi/hwmon/hwmon5/pwm1_enable")) in H.
  vm_compute in H. discriminate.
Qed.

(** A write of the platform profile leaves what the boost switch holds. *)
Lemma pwm1_enable_holds_frame (hw : HpWmiInterface.t) fs fs' v :
  (forall q, HpWmiInterface.PLATFORM_PROFILE <> q ->
     Sysfs.lookup q fs' = Sysfs.lookup q fs) ->
  pwm1_enable_holds hw fs v -> pwm1_enable_holds hw fs' v.
Proof.
  intros Hf (path & text & w & Hp & Hne & Hl & Hv).
  exists path, text, w. repeat split; try assumption.
  rewrite Hf; [assumption|].
  intros E. symmetry in E. revert E. apply pwm1_enable_not_profile.
Qed.

(** C8. [set_mode] towards Quiet, Balanced or Performance in a state
    where boost reads as on: whatever the write that clears boost
    returns, the call goes on to [hp_wmi.set_mode] and returns what that
    returns.  So when the clearing write fails and the profile write
    succeeds, the call returns [True] in a state whose boost switch still
    holds 0, and the next status query reports Max. *)
Theorem boost_clear_result_discarded (self : FanController.t) (fs : sysfs)
    (mode : FanMode.t) (perf : PerformanceMode.t) :
  FanController.set_mode_map mode = Some perf ->
  pwm1_enable_holds (FanController._hp_wmi self) fs 0 ->
  (forall ok1 fs1,
     HpWmiInterface.set_max_fan (FanController._hp_wmi self) MaxFanMode.OFF fs
       = Ok (ok1, fs1) ->
     FanController.set_mode self mode fs =
       HpWmiInterface.set_mode (FanController._hp_wmi self) perf fs1) /\
  (forall fs',
     HpWmiInterface.set_max_fan (FanController._hp_wmi self) MaxFanMode.OFF fs
       = Ok (false, fs) ->
     HpWmiInterface.set_mode (FanController._hp_wmi self) perf fs = Ok (true, fs') ->
     FanController.set_mode self mode fs = Ok (true, fs') /\
     pwm1_enable_holds (FanController._hp_wmi self) fs' 0 /\
     forall nvidia_smi,
       reported_fan_mode nvidia_smi self fs' =
         after_sensors nvidia_smi self fs' (Some FanMode.MAX)).
Proof.
  intros Hmap Hon.
  assert (Hgo : forall ok1 fs1,
    HpWmiInterface.set_max_fan (FanController._hp_wmi self) MaxFanMode.OFF fs
      = Ok (ok1, fs1) ->
    FanController.set_mode self mode fs =
      HpWmiInterface.set_mode (FanController._hp_wmi self) perf fs1).
  { intros ok1 fs1 Hclear.
    assert (Hs : FanController.set_mode self mode fs =
              bind (FanController.clear_max_fan self fs)
                (fun fs1 => HpWmiInterface.set_mode (FanController._hp_wmi self)
                              perf fs1)).
    { destruct mode; simpl in Hmap; inversion Hmap; reflexivity. }
    rewrite Hs. unfold FanController.clear_max_fan.
    rewrite (get_max_fan_holds _ _ _ Hon). simpl. rewrite Hclear. reflexivity. }
  split; [exact Hgo|].
  intros fs' Hclear Hset.
  assert (Hon' : pwm1_enable_holds (FanController._hp_wmi self) fs' 0).
  { destruct (hp_set_mode_frame (FanController._hp_wmi self) perf fs)
      as (ok & fs2 & E & Hf & _).
    rewrite Hset in E. inversion E; subst.
    eapply pwm1_enable_holds_frame; eassumption. }
  split; [|split].
  - now rewrite (Hgo _ _ Hclear).
  - exact Hon'.
  - intros nvidia_smi. apply max_overrides_profile.
    exact (get_max_fan_holds _ _ _ Hon').
Qed.

Lemma boost_clear_result_discarded_witness :
  exists fs',
    FanController.set_mode laptop_controller FanMode.PERFORMANCE stuck_laptop
      = Ok (true, fs') /\
    HpWmiInterface.get_max_fan laptop_hw fs' = Ok (Some MaxFanMode.ON) /\
    reported_fan_mode (Ok None) laptop_controller fs' = Ok (Some FanMode.MAX).
Proof.
  assert (Hon : pwm1_enable_holds laptop_hw stuck_laptop 0).
  { exists "/sys/devices/platform/hp-wmi/hwmon/hwmon5", ("0" ++ nl), false.
    split; [reflexivity|]. split; [discriminate|]. split; reflexivity. }
  destruct (boost_clear_result_discarded laptop_controller stuck_laptop
              FanMode.PERFORMANCE PerformanceMode.PERFORMANCE eq_refl Hon)
    as [_ Hstuck].
  destruct (Hstuck (Sysfs.store HpWmiInterface.PLATFORM_PROFILE "performance"
                      stuck_laptop) eq_refl eq_refl)
    as (Hset & Hon' & Hmax).
  eexists. split; [exact Hset|]. split.
  - vm_compute. reflexivity.
  - rewrite Hmax. vm_compute. reflexivity.
Defined.

(** ** Discovery *)

(** Temperature discovery never raises: a name file that cannot be read
    is passed over. *)
Lemma _discover_scan_total fs dirs devices :
  exists found, TemperatureMonitor._discover_scan fs dirs devices = Ok found.
Proof.
  revert devices. induction dirs as [|d dirs IH]; intros devices; simpl; [eauto|].
  destruct (Sysfs.exists_ fs _); [|apply IH].
  destruct (Sysfs.read fs _) as [text|e] eqn:R; simpl; [apply IH|].
  rewrite (read_raises_IOError _ _ _ R). simpl. apply IH.
Qed.

Lemma _discover_hwmon_devices_total fs :
  exists found, TemperatureMonitor._discover_hwmon_devices fs = Ok found.
Proof. apply _discover_scan_total. Qed.

(** C4, at the input where the code departs from it. The process may not
    read the name file of the hwmon device that the fallback scan for the
    HP device opens: the constructor of the HP interface raises
    [PermissionError], and so does the constructor of the fan controller,
    while temperature discovery on the same tree passes the device over
    and returns. *)
Theorem hp_discovery_raises_when_name_unreadable :
  HpWmiInterface.__init__ confined = Raise PermissionError /\
  FanController.__init__ confined = Raise PermissionError /\
  TemperatureMonitor.__init__ confined = Ok (TemperatureMonitor.mk []).
Proof. repeat split. Qed.

(** ** Picking the CPU and the GPU reading *)

Lemma first_reading_Some test readings value :
  TemperatureMonitor.first_reading test readings = Some value ->
  exists r, In r readings /\ test r = true /\ value = temperature r.
Proof.
  induction readings as [|x readings IH]; simpl; [discriminate|].
  destruct (test x) eqn:T.
  - intros H. inversion H. exists x. auto.
  - intros H. destruct (IH H) as (r & Hin & Hr & Hv). exists r. auto.
Qed.

Lemma first_reading_None test readings :
  TemperatureMonitor.first_reading test readings = None ->
  forall r, In r readings -> test r = false.
Proof.
  induction readings as [|x readings IH]; simpl; [contradiction|].
  destruct (test x) eqn:T; [discriminate|].
  intros H r [<- | Hin]; [assumption | now apply IH].
Qed.

(** The scan stops at the first reading that passes the test. *)
Lemma first_reading_app test before r after :
  (forall x, In x before -> test x = false) ->
  test r = true ->
  TemperatureMonitor.first_reading test (before ++ r :: after)%list
    = Some (temperature r).
Proof.
  intros Hb Hr. induction before as [|x before IH]; simpl.
  - now rewrite Hr.
  - rewrite (Hb x (or_introl eq_refl)). apply IH.
    intros y Hy. apply Hb. now right.
Qed.

Lemma first_by_device_Some devices test readings value :
  TemperatureMonitor.first_by_device devices test readings = Some value ->
  exists dev r,
    In dev devices /\ In r readings /\ test dev r = true /\ value = temperature r.
Proof.
  induction devices as [|d devices IH]; simpl; [discriminate|].
  destruct (TemperatureMonitor.first_reading (test d) readings) as [v|] eqn:F.
  - intros H. inversion H; subst.
    destruct (first_reading_Some _ _ _ F) as (r & Hin & Hr & Hv).
    exists d, r. auto.
  - intros H. destruct (IH H) as (dev & r & Hd & Hin & Hr & Hv).
    exists dev, r. auto.
Qed.

Lemma first_by_device_None devices test readings :
  TemperatureMonitor.first_by_device devices test readings = None ->
  forall dev r, In dev devices -> In r readings -> test dev r = false.
Proof.
  induction devices as [|d devices IH]; simpl; [contradiction|].
  destruct (TemperatureMonitor.first_reading (test d) readings) as [v|] eqn:F;
    [discriminate|].
  intros H dev r [<- | Hd] Hin.
  - eapply first_reading_None; eassumption.
  - now apply IH.
Qed.

(** C5. The CPU temperature is resolved among the collected readings in
    strict priority order: (1) when some reading of a device named
    coretemp, k10temp or zenpower has a label that contains "package" or
    "tctl" in any letter case, the temperature of such a reading; (2)
    else, when some reading is of one of those devices, the temperature
    of such a reading; (3) else, when some label contains "cpu" (matched
    on the lower-cased label, like the two words above), the temperature
    of such a reading; (4) else none.  The package reading wins over the
    thermal zone in the example. *)
Theorem cpu_resolution_policy :
  (forall self fs,
     TemperatureMonitor.get_cpu_temperature self fs =
       fmap TemperatureMonitor.cpu_temperature_of
         (TemperatureMonitor.get_all_temperatures self fs)) /\
  (forall readings,
     let result := TemperatureMonitor.cpu_temperature_of readings in
     ((exists r, In r readings /\ cpu_device r /\ package_label r) ->
      exists r, In r readings /\ cpu_device r /\ package_label r /\
                result = Some (temperature r)) /\
     (~ (exists r, In r readings /\ cpu_device r /\ package_label r) ->
      (exists r, In r readings /\ cpu_device r) ->
      exists r, In r readings /\ cpu_device r /\ result = Some (temperature r)) /\
     (~ (exists r, In r readings /\ cpu_device r) ->
      (exists r, In r readings /\ cpu_label r) ->
      exists r, In r readings /\ cpu_label r /\ result = Some (temperature r)) /\
     (~ (exists r, In r readings /\ cpu_device r) ->
      ~ (exists r, In r readings /\ cpu_label r) ->
      result = None)) /\
  TemperatureMonitor.cpu_temperature_of package_and_zone = Some 45%float.
Proof.
  split; [|split]; [| |reflexivity].
  { intros self fs. unfold TemperatureMonitor.get_cpu_temperature.
    now destruct (TemperatureMonitor.get_all_temperatures self fs). }
  intros readings result. subst result.
  unfold TemperatureMonitor.cpu_temperature_of.
  set (t1 := fun dev reading =>
         (device reading =? dev) &&
         (TemperatureMonitor.label_has "package" reading
          || TemperatureMonitor.label_has "tctl" reading)).
  set (t2 := fun dev reading => device reading =? dev).
  assert (H1 : forall v,
    TemperatureMonitor.first_by_device TemperatureMonitor.cpu_devices t1 readings
      = Some v ->
    exists r, In r readings /\ cpu_device r /\ package_label r /\ v = temperature r).
  { intros v H. destruct (first_by_device_Some _ _ _ _ H)
      as (dev & r & Hd & Hin & Hr & Hv).
    unfold t1 in Hr. apply andb_true_iff in Hr. destruct Hr as [E L].
    apply String.eqb_eq in E. apply orb_true_iff in L.
    exists r. repeat split; auto. unfold cpu_device. now rewrite E. }
  assert (N1 :
    TemperatureMonitor.first_by_device TemperatureMonitor.cpu_devices t1 readings
      = None ->
    ~ (exists r, In r readings /\ cpu_device r /\ package_label r)).
  { intros H (r & Hin & Hd & Hl).
    pose proof (first_by_device_None _ _ _ H _ _ Hd Hin) as F.
    unfold t1 in F. rewrite String.eqb_refl in F. simpl in F.
    apply orb_false_iff in F. destruct F as [F1 F2].
    destruct Hl as [Hl | Hl]; congruence. }
  assert (H2 : forall v,
    TemperatureMonitor.first_by_device TemperatureMonitor.cpu_devices t2 readings
      = Some v ->
    exists r, In r readings /\ cpu_device r /\ v = temperature r).
  { intros v H. destruct (first_by_device_Some _ _ _ _ H)
      as (dev & r & Hd & Hin & Hr & Hv).
    unfold t2 in Hr. apply String.eqb_eq in Hr.
    exists r. repeat split; auto. unfold cpu_device. now rewrite Hr. }
  assert (N2 :
    TemperatureMonitor.first_by_device TemperatureMonitor.cpu_devices t2 readings
      = None ->
    ~ (exists r, In r readings /\ cpu_device r)).
  { intros H (r & Hin & Hd).
    pose proof (first_by_device_None _ _ _ H _ _ Hd Hin) as F.
    unfold t2 in F. rewrite String.eqb_refl in F. discriminate. }
  destruct (TemperatureMonitor.first_by_device _ t1 readings) as [v1|] eqn:F1.
  { destruct (H1 v1 eq_refl) as (r & Hin & Hd & Hl & Hv).
    repeat split.
    - intros _. exists r. subst. auto.
    - intros Hn. exfalso. apply Hn. eauto.
    - intros Hn. exfalso. apply Hn. eauto.
    - intros Hn. exfalso. apply Hn. eauto. }
  pose proof (N1 eq_refl) as No1.
  destruct (TemperatureMonitor.first_by_device _ t2 readings) as [v2|] eqn:F2.
  { destruct (H2 v2 eq_refl) as (r & Hin & Hd & Hv).
    repeat split.
    - intros Hy. contradiction.
    - intros _ _. exists r. subst. auto.
    - intros Hn. exfalso. apply Hn. eauto.
    - intros Hn. exfalso. apply Hn. eauto. }
  pose proof (N2 eq_refl) as No2.
  destruct (TemperatureMonitor.first_reading _ readings) as [v3|] eqn:F3.
  { destruct (first_reading_Some _ _ _ F3) as (r & Hin & Hl & Hv).
    repeat split.
    - intros Hy. contradiction.
    - intros _ Hy. contradiction.
    - intros _ _. exists r. subst. auto.
    - intros _ Hn. exfalso. apply Hn. exists r. auto. }
  repeat split.
  - intros Hy. contradiction.
  - intros _ Hy. contradiction.
  - intros _ (r & Hin & Hl). unfold cpu_label in Hl.
    rewrite (first_reading_None _ _ F3 r Hin) in Hl. discriminate.
Qed.

Lemma cpu_resolution_policy_witness :
  exists r,
    In r package_and_zone /\ cpu_device r /\ package_label r /\
    TemperatureMonitor.cpu_temperature_of package_and_zone = Some (temperature r).
Proof.
  destruct cpu_resolution_policy as (_ & Hpolicy & _).
  destruct (Hpolicy package_and_zone) as (Hfirst & _).
  apply Hfirst.
  exists (mkReading "Package" "coretemp" 45%float None None).
  split; [now left|]. split; [now left|]. now left.
Defined.

(** C3, as the code has it. Among the readings of the amdgpu device, the
    first one in scan order whose label contains "edge" or "junction"
    is returned: there is no preference of junction over edge.  For the
    readings edge 60.0 then junction 75.0 the GPU temperature is 60.0. *)
Theorem gpu_first_edge_or_junction nvidia_smi
    (before after : list TemperatureReading) (r : TemperatureReading) :
  device r = "amdgpu" ->
  TemperatureMonitor.label_has "edge" r = true \/
  TemperatureMonitor.label_has "junction" r = true ->
  (forall x, In x before -> device x = "amdgpu" ->
     TemperatureMonitor.label_has "edge" x = false /\
     TemperatureMonitor.label_has "junction" x = false) ->
  TemperatureMonitor.gpu_temperature_of nvidia_smi (before ++ r :: after)%list
    = Ok (Some (temperature r)).
Proof.
  intros Hd Hl Hb. unfold TemperatureMonitor.gpu_temperature_of.
  unfold TemperatureMonitor.gpu_devices, TemperatureMonitor.first_by_device.
  rewrite (first_reading_app _ before r after); [reflexivity| |].
  - intros x Hx. destruct (device x =? "amdgpu") eqn:E; [|reflexivity].
    apply String.eqb_eq in E. destruct (Hb x Hx E) as [-> ->]. reflexivity.
  - rewrite Hd. simpl. destruct Hl as [-> | ->]; [reflexivity|].
    now rewrite orb_true_r.
Qed.

Lemma gpu_first_edge_or_junction_witness :
  TemperatureMonitor.gpu_temperature_of (Ok None) [edge_reading; junction_reading]
    = Ok (Some 60%float).
Proof.
  apply (gpu_first_edge_or_junction (Ok None) [] [junction_reading] edge_reading).
  - reflexivity.
  - now left.
  - intros x [].
Defined.

Lemma float_60_is_not_75 : 60%float <> 75%float.
Proof.
  intros H. apply (f_equal (fun x => PrimFloat.eqb x 60%float)) in H.
  vm_compute in H. discriminate.
Qed.

(** The claim C3 as the spec words it fails: for edge 60.0 then junction
    75.0, in that scan order, the GPU temperature is 60.0, not 75.0. *)
Lemma gpu_edge_before_junction :
  TemperatureMonitor.gpu_temperature_of (Ok None) [edge_reading; junction_reading]
    = Ok (Some 60%float) /\
  TemperatureMonitor.gpu_temperature_of (Ok None) [edge_reading; junction_reading]
    <> Ok (Some 75%float).
Proof.
  split; [reflexivity|].
  intros H.
  apply (f_equal (fun c => match c with
                           | Ok (Some x) => x
                           | _ => 0%float
                           end)) in H.
  exact (float_60_is_not_75 H).
Qed.

(** ** Reading the sensors *)

Lemma collect_In {A B : Type} (body : A -> result B) catches items l b :
  collect body catches items = Ok l -> In b l ->
  exists x, In x items /\ body x = Ok b.
Proof.
  revert l. induction items as [|x items IH]; simpl; intros l H Hb.
  - inversion H; subst. contradiction.
  - destruct (body x) as [b0|e] eqn:E.
    + inv_bind H. inversion H; subst. destruct Hb as [<- | Hb].
      * exists x. auto.
      * destruct (IH _ Ha Hb) as (y & Hy & Ey). exists y. auto.
    + destruct (catches e); [|discriminate].
      destruct (IH _ H Hb) as (y & Hy & Ey). exists y. auto.
Qed.

Lemma millidegrees_to_celsius_Ok raw value :
  millidegrees_to_celsius raw = Ok value -> celsius_of raw value.
Proof.
  unfold millidegrees_to_celsius, truediv. intros H. inv_bind H.
  inversion H. exists a. auto.
Qed.

(** A threshold read that returns gives the conversion of the integer in
    the file when there is one, and nothing otherwise. *)
Lemma _read_threshold_Ok fs file o :
  TemperatureMonitor._read_threshold fs file = Ok o -> threshold_is fs file o.
Proof.
  unfold TemperatureMonitor._read_threshold, threshold_is,
    Sysfs.exists_, Sysfs.read.
  destruct (Sysfs.lookup file fs) as [[|text r w]|]; simpl.
  - intros H. now inversion H.
  - destruct r; simpl; [|intros H; now inversion H].
    destruct (py_int (Str.strip text)) as [raw|e] eqn:P; simpl.
    + destruct (millidegrees_to_celsius raw) as [value|e] eqn:C; simpl.
      * intros H. inversion H; subst. exists value.
        split; [now apply millidegrees_to_celsius_Ok | reflexivity].
      * unfold millidegrees_to_celsius, truediv, float_of_int in C.
        destruct (binary_normalize prec emax raw 0 false); simpl in C;
          inversion C; subst; simpl; discriminate.
    + rewrite (py_int_raises_ValueError _ _ P). simpl.
      intros H. now inversion H.
  - intros H. now inversion H.
Qed.

Lemma collect_keeps {A B : Type} (body : A -> result B) catches items l x b :
  collect body catches items = Ok l -> In x items -> body x = Ok b -> In b l.
Proof.
  revert l. induction items as [|y items IH]; simpl; intros l H Hx Hb;
    [contradiction|].
  destruct (body y) as [b0|e] eqn:E.
  - inv_bind H. inversion H; subst. destruct Hx as [-> | Hx].
    + rewrite Hb in E. inversion E. now left.
    + right. eapply IH; eassumption.
  - destruct (catches e); [|discriminate].
    destruct Hx as [-> | Hx]; [congruence | eapply IH; eassumption].
Qed.

Lemma _read_temperature_Ok fs device_name temp_file r :
  TemperatureMonitor._read_temperature fs device_name temp_file = Ok r ->
  exists text raw,
    Sysfs.read fs temp_file = Ok text /\
    py_int (Str.strip text) = Ok raw /\
    celsius_of raw (temperature r) /\
    threshold_is fs (Str.replace "_input" "_crit" temp_file) (critical r) /\
    threshold_is fs (Str.replace "_input" "_max" temp_file) (max_temp r).
Proof.
  unfold TemperatureMonitor._read_temperature. intros H.
  inv_bind H. inv_bind H. inv_bind H. inv_bind H. inv_bind H. inv_bind H.
  inversion H; subst. simpl. exists a, a0.
  repeat split; try assumption.
  - now apply millidegrees_to_celsius_Ok.
  - now apply _read_threshold_Ok.
  - now apply _read_threshold_Ok.
Qed.

(** C10. Every reading that the scan of a hwmon device reports comes from
    a [temp*_input] file of the device whose text parsed to an integer
    [raw], and its temperature is [raw / 1000.0]: the float nearest to
    [raw] divided by 1000.0 in binary64, with no other rounding.  The
    same conversion applies to the optional critical and max thresholds:
    when the [_crit] or [_max] file of the channel can be read and holds
    an integer, the threshold of the reading is that integer over 1000.0,
    and it is absent exactly when the file is missing, cannot be read or
    does not hold an integer.  Every reading that can be made from a
    [temp*_input] file of the device is among the reported ones. *)
Theorem celsius_is_raw_over_1000 (fs : sysfs) (device_name hwmon_path : string)
    (readings : list TemperatureReading) :
  TemperatureMonitor._read_temperatures_from_hwmon fs device_name hwmon_path
    = Ok readings ->
  (forall r, In r readings ->
     exists temp_file text raw,
       In temp_file (Sysfs.glob fs (Path.join hwmon_path "temp*_input")) /\
       Sysfs.read fs temp_file = Ok text /\
       py_int (Str.strip text) = Ok raw /\
       TemperatureMonitor._read_temperature fs device_name temp_file = Ok r /\
       celsius_of raw (temperature r) /\
       threshold_is fs (Str.replace "_input" "_crit" temp_file) (critical r) /\
       threshold_is fs (Str.replace "_input" "_max" temp_file) (max_temp r) /\
       (forall raw', py_int (Str.strip text) = Ok raw' ->
          celsius_of raw' (temperature r))) /\
  (forall temp_file r,
     In temp_file (Sysfs.glob fs (Path.join hwmon_path "temp*_input")) ->
     TemperatureMonitor._read_temperature fs device_name temp_file = Ok r ->
     In r readings).
Proof.
  intros H. unfold TemperatureMonitor._read_temperatures_from_hwmon in H. split.
  - intros r Hr.
    destruct (collect_In _ _ _ _ _ H Hr) as (temp_file & Hin & Hbody).
    destruct (_read_temperature_Ok _ _ _ _ Hbody)
      as (text & raw & Hread & Hint & Hc & Hcrit & Hmax).
    exists temp_file, text, raw. repeat split; try assumption.
    intros raw' Hint'. rewrite Hint in Hint'. inversion Hint'; subst. assumption.
  - intros temp_file r Hin Hbody. eapply collect_keeps; eassumption.
Qed.

(** The CPU channel of the laptop holds 45123, with thresholds 100000 and
    84000. *)
Lemma celsius_is_raw_over_1000_witness :
  exists temp_file text raw,
    In temp_file (Sysfs.glob (laptop "balanced" "balanced" (attr "2"))
                    (Path.join "/sys/class/hwmon/hwmon0" "temp*_input")) /\
    Sysfs.read (laptop "balanced" "balanced" (attr "2")) temp_file = Ok text /\
    py_int (Str.strip text) = Ok raw /\
    celsius_of raw 0x1.68fbe76c8b439p+5%float /\
    threshold_is (laptop "balanced" "balanced" (attr "2"))
      (Str.replace "_input" "_crit" temp_file) (Some 100%float) /\
    threshold_is (laptop "balanced" "balanced" (attr "2"))
      (Str.replace "_input" "_max" temp_file) (Some 84%float).
Proof.
  destruct (celsius_is_raw_over_1000 (laptop "balanced" "balanced" (attr "2"))
              "coretemp" "/sys/class/hwmon/hwmon0"
              [mkReading "Package id 0" "coretemp" 0x1.68fbe76c8b439p+5%float
                 (Some 100%float) (Some 84%float)]
              eq_refl)
    as [Hfrom _].
  destruct (Hfrom (mkReading "Package id 0" "coretemp" 0x1.68fbe76c8b439p+5%float
                     (Some 100%float) (Some 84%float)) (or_introl eq_refl))
    as (temp_file & text & raw & Hin & Hread & Hint & _ & Hc & Hcrit & Hmax & _).
  exists temp_file, text, raw.
  split; [exact Hin|]. split; [exact Hread|]. split; [exact Hint|].
  split; [exact Hc|]. split; [exact Hcrit | exact Hmax].
Defined.

(** ** The device dictionary *)

Lemma dict_get_set_same {V : Type} k (v : V) d : Dict.get k (Dict.set k v d) = Some v.
Proof.
  induction d as [|[k0 v0] d IH]; simpl.
  - now rewrite String.eqb_refl.
  - destruct (k0 =? k) eqn:E; simpl; rewrite E; [reflexivity | apply IH].
Qed.

Lemma dict_get_set_other {V : Type} k k' (v : V) d :
  k <> k' -> Dict.get k' (Dict.set k v d) = Dict.get k' d.
Proof.
  intros Hk. induction d as [|[k0 v0] d IH]; simpl.
  - destruct (k =? k') eqn:E; [|reflexivity].
    apply String.eqb_eq in E. contradiction.
  - destruct (k0 =? k) eqn:E; simpl.
    + apply String.eqb_eq in E. subst k0.
      destruct (k =? k') eqn:E'; [|reflexivity].
      apply String.eqb_eq in E'. contradiction.
    + destruct (k0 =? k'); [reflexivity | apply IH].
Qed.

Lemma dict_In_set {V : Type} k (v : V) d k' v' :
  In (k', v') (Dict.set k v d) -> (k' = k /\ v' = v) \/ In (k', v') d.
Proof.
  induction d as [|[k0 v0] d IH]; simpl.
  - intros [H | []]. inversion H. now left.
  - destruct (k0 =? k) eqn:E; simpl.
    + apply String.eqb_eq in E. subst k0.
      intros [H | H]; [inversion H; now left | right; now right].
    + intros [H | H]; [right; now left|].
      destruct (IH H) as [L | R]; [now left | right; now right].
Qed.

Lemma dict_keys_set {V : Type} k (v : V) d k' :
  In k' (map fst (Dict.set k v d)) -> k' = k \/ In k' (map fst d).
Proof.
  induction d as [|[k0 v0] d IH]; simpl.
  - intros [H | []]. now left.
  - destruct (k0 =? k) eqn:E; simpl.
    + intros H. now right.
    + intros [H | H]; [right; now left|].
      destruct (IH H) as [L | R]; [now left | right; now right].
Qed.

Lemma dict_set_NoDup {V : Type} k (v : V) d :
  NoDup (map fst d) -> NoDup (map fst (Dict.set k v d)).
Proof.
  induction d as [|[k0 v0] d IH]; simpl; intros H.
  - constructor; [intros [] | constructor].
  - inversion H as [|x l Hnot Hd]; subst.
    destruct (k0 =? k) eqn:E; simpl; [assumption|].
    constructor; [|now apply IH].
    intros Hin. destruct (dict_keys_set _ _ _ _ Hin) as [L | R].
    + apply String.eqb_neq in E. now apply E.
    + contradiction.
Qed.

Lemma dict_In_get {V : Type} k (v : V) d :
  NoDup (map fst d) -> In (k, v) d -> Dict.get k d = Some v.
Proof.
  induction d as [|[k0 v0] d IH]; simpl; intros Hd Hin; [contradiction|].
  inversion Hd as [|x l Hnot Hd']; subst.
  destruct Hin as [H | H].
  - inversion H; subst. now rewrite String.eqb_refl.
  - destruct (k0 =? k) eqn:E; [|now apply IH].
    apply String.eqb_eq in E. subst k0. exfalso. apply Hnot.
    change k with (fst (k, v)). now apply in_map.
Qed.

(** One turn of the discovery loop: a device whose name file can be read
    is entered under its name, any other is passed over. *)
Lemma _discover_scan_step fs d rest devices :
  TemperatureMonitor._discover_scan fs (d :: rest) devices =
    TemperatureMonitor._discover_scan fs rest
      (match declared_name fs d with
       | Some name => Dict.set name d devices
       | None => devices
       end).
Proof.
  simpl. unfold declared_name, Sysfs.exists_, Sysfs.read.
  destruct (Sysfs.lookup (Path.join d "name") fs) as [[|text r w]|];
    try reflexivity.
  destruct r; reflexivity.
Qed.

Lemma _discover_scan_wf fs dirs devices found :
  devices_wf fs devices ->
  TemperatureMonitor._discover_scan fs dirs devices = Ok found ->
  devices_wf fs found.
Proof.
  revert devices. induction dirs as [|d dirs IH]; intros devices Hwf H.
  - simpl in H. inversion H; subst. assumption.
  - rewrite _discover_scan_step in H. eapply IH; [|eassumption].
    destruct (declared_name fs d) as [name|] eqn:N; [|assumption].
    destruct Hwf as [Hnd Hnamed]. split.
    + now apply dict_set_NoDup.
    + intros k p Hin. destruct (dict_In_set _ _ _ _ _ Hin) as [[-> ->] | Hold];
        [assumption | now apply Hnamed].
Qed.

Lemma _discover_scan_keeps fs dirs devices found name :
  (forall d, In d dirs -> declared_name fs d <> Some name) ->
  TemperatureMonitor._discover_scan fs dirs devices = Ok found ->
  Dict.get name found = Dict.get name devices.
Proof.
  revert devices. induction dirs as [|d dirs IH]; intros devices Hn H.
  - simpl in H. inversion H; subst. reflexivity.
  - rewrite _discover_scan_step in H.
    rewrite (IH _ (fun x Hx => Hn x (or_intror Hx)) H).
    destruct (declared_name fs d) as [k|] eqn:N; [|reflexivity].
    apply dict_get_set_other. intros ->. apply (Hn d); [now left | assumption].
Qed.

(** The last device of a name is the one left under that name. *)
Lemma _discover_scan_last fs front d2 after devices found name :
  declared_name fs d2 = Some name ->
  (forall d, In d after -> declared_name fs d <> Some name) ->
  TemperatureMonitor._discover_scan fs (front ++ d2 :: after)%list devices
    = Ok found ->
  Dict.get name found = Some d2.
Proof.
  intros N2 Hafter. revert devices.
  induction front as [|d front IH]; intros devices H.
  - simpl app in H. rewrite _discover_scan_step, N2 in H.
    rewrite (_discover_scan_keeps _ _ _ _ _ Hafter H).
    apply dict_get_set_same.
  - simpl app in H. rewrite _discover_scan_step in H. eapply IH; eassumption.
Qed.

Lemma _read_devices_In fs devices readings r :
  TemperatureMonitor._read_devices fs devices = Ok readings -> In r readings ->
  exists name path found,
    In (name, path) devices /\
    TemperatureMonitor._read_temperatures_from_hwmon fs name path = Ok found /\
    In r found.
Proof.
  revert readings. induction devices as [|[name path] devices IH];
    simpl; intros readings H Hr.
  - inversion H; subst. contradiction.
  - inv_bind H. inv_bind H. inversion H; subst.
    apply in_app_or in Hr. destruct Hr as [Hr | Hr].
    + exists name, path, a. auto.
    + destruct (IH _ Ha0 Hr) as (n & p & f & Hin & Hf & Hrf).
      exists n, p, f. auto.
Qed.

(** C9. Discovery keeps the hwmon devices in a dictionary keyed by the
    declared name.  When two enumerated devices declare the same name,
    the path kept under that name is the one of the device enumerated
    last, the path of the other is nowhere in the dictionary, and every
    reading of every later [get_all_temperatures] (hence of the CPU and
    GPU resolution and of the diagnostics, which read through it) is
    made from a [temp*_input] file of a kept path, never from the
    shadowed device. *)
Theorem same_name_shadows (fs : sysfs) (before between after : list string)
    (d1 d2 name : string) :
  Sysfs.glob fs (Path.join TemperatureMonitor.HWMON_PATH "hwmon*")
    = (before ++ d1 :: between ++ d2 :: after)%list ->
  d1 <> d2 ->
  declared_name fs d1 = Some name ->
  declared_name fs d2 = Some name ->
  (forall d, In d after -> declared_name fs d <> Some name) ->
  exists self,
    TemperatureMonitor.__init__ fs = Ok self /\
    Dict.get name (TemperatureMonitor._hwmon_devices self) = Some d2 /\
    ~ In d1 (Dict.values (TemperatureMonitor._hwmon_devices self)) /\
    forall fs' readings r,
      TemperatureMonitor.get_all_temperatures self fs' = Ok readings ->
      In r readings ->
      exists dev path temp_file,
        In (dev, path) (TemperatureMonitor._hwmon_devices self) /\
        path <> d1 /\
        In temp_file (Sysfs.glob fs' (Path.join path "temp*_input")) /\
        TemperatureMonitor._read_temperature fs' dev temp_file = Ok r.
Proof.
  intros Hglob Hne N1 N2 Hafter.
  destruct (_discover_hwmon_devices_total fs) as [found Hfound].
  assert (Hwf : devices_wf fs found).
  { eapply _discover_scan_wf; [|exact Hfound].
    split; [constructor | intros k p []]. }
  assert (Hget : Dict.get name found = Some d2).
  { unfold TemperatureMonitor._discover_hwmon_devices in Hfound.
    rewrite Hglob in Hfound.
    change (before ++ d1 :: between ++ d2 :: after)%list
      with (before ++ (d1 :: between) ++ d2 :: after)%list in Hfound.
    rewrite app_assoc in Hfound.
    eapply _discover_scan_last; eassumption. }
  assert (Hgone : forall dev, ~ In (dev, d1) found).
  { intros dev Hin. destruct Hwf as [Hnd Hnamed].
    pose proof (Hnamed _ _ Hin) as Hd. rewrite N1 in Hd. inversion Hd; subst dev.
    rewrite (dict_In_get _ _ _ Hnd Hin) in Hget. inversion Hget. contradiction. }
  exists (TemperatureMonitor.mk found).
  split; [unfold TemperatureMonitor.__init__; now rewrite Hfound|].
  split; [exact Hget|]. split.
  - unfold Dict.values. simpl. intros Hin. apply in_map_iff in Hin.
    destruct Hin as [[dev p] [E Hin]]. simpl in E. subst p.
    exact (Hgone dev Hin).
  - intros fs' readings r Hall Hr.
    unfold TemperatureMonitor.get_all_temperatures in Hall. simpl in Hall.
    destruct (_read_devices_In _ _ _ _ Hall Hr) as (dev & path & rs & Hin & Hrs & Hrr).
    unfold TemperatureMonitor._read_temperatures_from_hwmon in Hrs.
    destruct (collect_In _ _ _ _ _ Hrs Hrr) as (temp_file & Hfile & Hbody).
    exists dev, path, temp_file. repeat split; try assumption.
    intros ->. exact (Hgone dev Hin).
Qed.

Lemma same_name_shadows_witness :
  exists self,
    TemperatureMonitor.__init__ twin_sensors = Ok self /\
    Dict.get "coretemp" (TemperatureMonitor._hwmon_devices self)
      = Some "/sys/class/hwmon/hwmon1" /\
    ~ In "/sys/class/hwmon/hwmon0"
        (Dict.values (TemperatureMonitor._hwmon_devices self)).
Proof.
  destruct (same_name_shadows twin_sensors [] [] []
              "/sys/class/hwmon/hwmon0" "/sys/class/hwmon/hwmon1" "coretemp"
              eq_refl)
    as (self & Hinit & Hget & Hgone & _).
  - discriminate.
  - reflexivity.
  - reflexivity.
  - intros d [].
  - exists self. auto.
Defined.

Example twin_sensors_readings :
  fmap (map temperature)
    (self <- TemperatureMonitor.__init__ twin_sensors ;;
     TemperatureMonitor.get_all_temperatures self twin_sensors)
  = Ok [50%float].
Proof. reflexivity. Qed.

(** The diagnostics list every reading of [get_all_temperatures], and
    nothing else. *)
Lemma get_diagnostics_all nvidia_smi (self : FanController.t) fs d :
  FanController.get_diagnostics nvidia_smi self fs = Ok d ->
  exists readings,
    TemperatureMonitor.get_all_temperatures (FanController._temp_monitor self) fs
      = Ok readings /\
    FanController.all d = map (fun r => (label r, device r, temperature r)) readings.
Proof.
  unfold FanController.get_diagnostics. intros H.
  inv_bind H. inv_bind H. inv_bind H. inv_bind H. inversion H; subst.
  exists a2. auto.
Qed.

(** * Further properties of the code *)

(** ** Boost and profile: what a write leaves for the next read *)

Lemma write_paths fs p v fs' :
  Sysfs.write fs p v = Ok fs' -> map fst fs' = map fst fs.
Proof.
  unfold Sysfs.write. destruct (Sysfs.lookup p fs) as [[|text r w]|];
    try discriminate.
  destruct w; [|discriminate]. intros H. inversion H. apply store_paths.
Qed.

Lemma write_Ok_inv fs p v fs' :
  Sysfs.write fs p v = Ok fs' ->
  exists text r,
    Sysfs.lookup p fs = Some (File text r true) /\
    fs' = Sysfs.store p v fs /\
    Sysfs.lookup p fs' = Some (File v r true).
Proof.
  unfold Sysfs.write. destruct (Sysfs.lookup p fs) as [[|text r w]|] eqn:L;
    try discriminate.
  destruct w; [|discriminate]. intros H. inversion H; subst.
  exists text, r. repeat split. eapply lookup_store_same; eassumption.
Qed.

Lemma get_max_fan_frame (hw : HpWmiInterface.t) fs fs' :
  (forall q, boost_file hw q -> Sysfs.lookup q fs' = Sysfs.lookup q fs) ->
  HpWmiInterface.get_max_fan hw fs' = HpWmiInterface.get_max_fan hw fs.
Proof.
  intros Hf. unfold HpWmiInterface.get_max_fan.
  destruct (HpWmiInterface._hwmon_hp_wmi_path hw) as [path|] eqn:Hp; [|reflexivity].
  assert (Hl : Sysfs.lookup (Path.join path "pwm1_enable") fs'
               = Sysfs.lookup (Path.join path "pwm1_enable") fs).
  { apply Hf. exists path. auto. }
  now rewrite (exists_frame _ _ _ Hl), (read_frame _ _ _ Hl).
Qed.

Lemma set_max_fan_true_inv (hw : HpWmiInterface.t) mode fs fs' :
  HpWmiInterface.set_max_fan hw mode fs = Ok (true, fs') ->
  exists path text r,
    HpWmiInterface._hwmon_hp_wmi_path hw = Some path /\
    truthy (Some path) = true /\
    Sysfs.lookup (Path.join path "pwm1_enable") fs = Some (File text r true) /\
    Sysfs.lookup (Path.join path "pwm1_enable") fs'
      = Some (File (if MaxFanMode.eqb mode MaxFanMode.ON then "0" else "2") r true) /\
    map fst fs' = map fst fs.
Proof.
  unfold HpWmiInterface.set_max_fan.
  destruct (HpWmiInterface._hwmon_hp_wmi_path hw) as [path|] eqn:Hp;
    [|discriminate].
  destruct (truthy (Some path)) eqn:T; simpl negb; cbv iota; [|discriminate].
  destruct (negb (Sysfs.exists_ _ _)); [discriminate|].
  destruct (Sysfs.write fs _ _) as [fs2|e] eqn:W; simpl.
  - intros H. inversion H; subst.
    destruct (write_Ok_inv _ _ _ _ W) as (text & r & L & _ & L').
    exists path, text, r. repeat split; try assumption.
    eapply write_paths; eassumption.
  - destruct (IOError e); discriminate.
Qed.

Lemma get_max_fan_after_write (hw : HpWmiInterface.t) mode fs path r :
  HpWmiInterface._hwmon_hp_wmi_path hw = Some path ->
  truthy (Some path) = true ->
  Sysfs.lookup (Path.join path "pwm1_enable") fs
    = Some (File (if MaxFanMode.eqb mode MaxFanMode.ON then "0" else "2") r true) ->
  HpWmiInterface.get_max_fan hw fs = Ok (if r then Some mode else None).
Proof.
  intros Hp T L. unfold HpWmiInterface.get_max_fan, Sysfs.exists_, Sysfs.read.
  rewrite Hp, T, L. simpl negb. cbv iota.
  destruct r; [|reflexivity]. destruct mode; reflexivity.
Qed.

Lemma set_max_fan_reads_back (hw : HpWmiInterface.t) mode fs fs' :
  HpWmiInterface.set_max_fan hw mode fs = Ok (true, fs') ->
  exists path text r,
    HpWmiInterface._hwmon_hp_wmi_path hw = Some path /\
    Sysfs.lookup (Path.join path "pwm1_enable") fs = Some (File text r true) /\
    HpWmiInterface.get_max_fan hw fs' = Ok (if r then Some mode else None).
Proof.
  intros H. destruct (set_max_fan_true_inv _ _ _ _ H)
    as (path & text & r & Hp & T & L & L' & _).
  exists path, text, r. repeat split; try assumption.
  eapply get_max_fan_after_write; eassumption.
Qed.

(** X1. When [set_max_fan] reports success, the boost switch holds the
    value written, and the next [get_max_fan] reads back the mode that was
    set; it reads nothing only when the switch is a file that may be
    written but not read. *)
Theorem set_max_fan_round_trip (hw : HpWmiInterface.t) (mode : MaxFanMode.t)
    (fs fs' : sysfs) :
  HpWmiInterface.set_max_fan hw mode fs = Ok (true, fs') ->
  exists path text r,
    HpWmiInterface._hwmon_hp_wmi_path hw = Some path /\
    Sysfs.lookup (Path.join path "pwm1_enable") fs = Some (File text r true) /\
    HpWmiInterface.get_max_fan hw fs' = Ok (if r then Some mode else None).
Proof. apply set_max_fan_reads_back. Qed.

Lemma set_max_fan_round_trip_witness :
  exists fs',
    HpWmiInterface.set_max_fan laptop_hw MaxFanMode.ON
      (laptop "balanced" "balanced" (attr "2")) = Ok (true, fs') /\
    HpWmiInterface.get_max_fan laptop_hw fs' = Ok (Some MaxFanMode.ON).
Proof.
  eexists. split; [reflexivity|].
  destruct (set_max_fan_round_trip laptop_hw MaxFanMode.ON
              (laptop "balanced" "balanced" (attr "2")) _ eq_refl)
    as (path & text & r & Hp & L & G).
  inversion Hp; subst path. vm_compute in L. inversion L; subst. exact G.
Defined.

(** What a status is made of. *)
Lemma get_status_Ok_inv nvidia_smi (self : FanController.t) fs st :
  FanController.get_status nvidia_smi self fs = Ok st ->
  exists current max_fan,
    HpWmiInterface.get_current_mode (FanController._hp_wmi self) fs = Ok current /\
    HpWmiInterface.get_max_fan (FanController._hp_wmi self) fs = Ok max_fan /\
    HpWmiInterface.get_fan_speeds (FanController._hp_wmi self) fs
      = Ok (fan_speeds st) /\
    TemperatureMonitor.get_summary nvidia_smi (FanController._temp_monitor self) fs
      = Ok (cpu_temp st, gpu_temp st) /\
    max_fan_enabled st =
      match max_fan with Some MaxFanMode.ON => true | _ => false end /\
    fan_mode st =
      match max_fan with
      | Some MaxFanMode.ON => Some FanMode.MAX
      | _ => option_map FanController.status_mode_map current
      end /\
    is_available st = FanController.is_available self.
Proof.
  unfold FanController.get_status. intros H.
  inv_bind H. destruct a as [c g]. inv_bind H. inv_bind H. inv_bind H.
  inversion H; subst; simpl. exists a, a0.
  repeat split; try assumption.
  all: destruct a0 as [[|]|]; try destruct a; reflexivity.
Qed.

(** X2. After [set_mode(MAX)] reported success on a readable boost
    switch, the next status reports Max.  After [set_mode(OFF)] reported
    success, no next status reports Max or has max fan enabled. *)
Theorem max_and_off_show_in_status nvidia_smi (self : FanController.t)
    (fs fs' : sysfs) :
  (FanController.set_mode self FanMode.MAX fs = Ok (true, fs') ->
   boost_readable (FanController._hp_wmi self) fs ->
   reported_fan_mode nvidia_smi self fs' =
     after_sensors nvidia_smi self fs' (Some FanMode.MAX)) /\
  (FanController.set_mode self FanMode.OFF fs = Ok (true, fs') ->
   forall st, FanController.get_status nvidia_smi self fs' = Ok st ->
     fan_mode st <> Some FanMode.MAX /\ max_fan_enabled st = false).
Proof.
  split.
  - intros H (path & text & w & Hp & L).
    destruct (set_max_fan_reads_back _ _ _ _ H) as (path' & text' & r & Hp' & L' & G).
    rewrite Hp in Hp'. inversion Hp'; subst path'.
    rewrite L in L'. inversion L'; subst.
    now apply max_overrides_profile.
  - intros H st Hst.
    destruct (set_max_fan_reads_back _ _ _ _ H) as (path & text & r & Hp & L & G).
    destruct (get_status_Ok_inv _ _ _ _ Hst)
      as (cur & mf & _ & Hm & _ & _ & He & Hf & _).
    simpl in Hm, G. rewrite G in Hm. inversion Hm; subst mf.
    rewrite He, Hf. destruct r; split; try reflexivity;
      destruct cur as [[| |]|]; discriminate.
Qed.

Lemma max_and_off_show_in_status_witness :
  exists fs',
    FanController.set_mode laptop_controller FanMode.MAX
      (laptop "quiet" "quiet" (attr "2")) = Ok (true, fs') /\
    reported_fan_mode (Ok None) laptop_controller fs' = Ok (Some FanMode.MAX).
Proof.
  exists (Sysfs.store "/sys/devices/platform/hp-wmi/hwmon/hwmon5/pwm1_enable"
            "0" (laptop "quiet" "quiet" (attr "2"))).
  split; [reflexivity|].
  destruct (max_and_off_show_in_status (Ok None) laptop_controller
              (laptop "quiet" "quiet" (attr "2"))
              (Sysfs.store "/sys/devices/platform/hp-wmi/hwmon/hwmon5/pwm1_enable"
                 "0" (laptop "quiet" "quiet" (attr "2"))))
    as [Hmax _].
  rewrite Hmax.
  - vm_compute. reflexivity.
  - reflexivity.
  - exists "/sys/devices/platform/hp-wmi/hwmon/hwmon5", ("2" ++ nl), true.
    split; reflexivity.
Defined.

(** X3. In every status, max fan is enabled exactly when the fan mode is
    Max, and the fan mode is never Off; without the profile surface and
    with max fan not enabled, the fan mode is absent rather than a
    default. *)
Theorem status_mode_invariant nvidia_smi (self : FanController.t) (fs : sysfs)
    (st : SystemStatus) :
  FanController.get_status nvidia_smi self fs = Ok st ->
  (max_fan_enabled st = true <-> fan_mode st = Some FanMode.MAX) /\
  fan_mode st <> Some FanMode.OFF /\
  (HpWmiInterface._platform_profile_available (FanController._hp_wmi self) = false ->
   max_fan_enabled st = false -> fan_mode st = None).
Proof.
  intros H. destruct (get_status_Ok_inv _ _ _ _ H)
    as (cur & mf & Hc & Hm & _ & _ & He & Hf & _).
  rewrite He, Hf. split; [|split].
  - destruct mf as [[|]|]; destruct cur as [[| |]|]; simpl;
      split; intros E; try reflexivity; discriminate.
  - destruct mf as [[|]|]; destruct cur as [[| |]|]; discriminate.
  - intros Hna Hoff. unfold HpWmiInterface.get_current_mode in Hc.
    rewrite Hna in Hc. inversion Hc; subst cur.
    destruct mf as [[|]|]; [reflexivity | discriminate | reflexivity].
Qed.

Lemma status_mode_invariant_witness :
  exists st,
    FanController.get_status (Ok None) laptop_controller boosted_laptop = Ok st /\
    (max_fan_enabled st = true <-> fan_mode st = Some FanMode.MAX) /\
    fan_mode st <> Some FanMode.OFF.
Proof.
  eexists. split; [vm_compute; reflexivity|].
  match goal with
  | |- (max_fan_enabled ?st = _ <-> _) /\ _ =>
      destruct (status_mode_invariant (Ok None) laptop_controller
                  boosted_laptop st) as (Hiff & Hoff & _)
  end.
  - vm_compute. reflexivity.
  - split; assumption.
Defined.

Lemma first_available_Some variations available v :
  HpWmiInterface.first_available variations available = Some v ->
  exists before after,
    variations = (before ++ v :: after)%list /\
    In v available /\
    (forall c, In c before -> ~ In c available).
Proof.
  induction variations as [|x variations IH]; simpl; [discriminate|].
  destruct (Str.mem x available) eqn:M.
  - intros H. inversion H; subst. exists [], variations.
    repeat split; [now apply mem_In | intros c []].
  - intros H. destruct (IH H) as (before & after & E & Hin & Hb).
    exists (x :: before), after. subst variations. repeat split; [assumption|].
    intros c [<- | Hc]; [|now apply Hb].
    intros Hx. apply mem_In in Hx. congruence.
Qed.

Lemma hp_set_mode_true_inv (hw : HpWmiInterface.t) mode fs fs' :
  HpWmiInterface.set_mode hw mode fs = Ok (true, fs') ->
  exists available v text r,
    HpWmiInterface._platform_profile_available hw = true /\
    HpWmiInterface.get_available_profiles fs = Ok available /\
    HpWmiInterface.first_available (HpWmiInterface.profile_variations mode) available
      = Some v /\
    Sysfs.lookup HpWmiInterface.PLATFORM_PROFILE fs = Some (File text r true) /\
    Sysfs.lookup HpWmiInterface.PLATFORM_PROFILE fs' = Some (File v r true) /\
    fs' = Sysfs.store HpWmiInterface.PLATFORM_PROFILE v fs.
Proof.
  unfold HpWmiInterface.set_mode.
  destruct (HpWmiInterface._platform_profile_available hw); simpl negb; cbv iota;
    [|discriminate].
  destruct (get_available_profiles_total fs) as [available Hav]. rewrite Hav. simpl.
  destruct (HpWmiInterface.first_available _ available) as [v|] eqn:F;
    [|discriminate].
  destruct (negb (truthy (Some v))); [discriminate|].
  destruct (Sysfs.write fs HpWmiInterface.PLATFORM_PROFILE v) as [fs2|e] eqn:W; simpl.
  - intros H. inversion H; subst.
    destruct (write_Ok_inv _ _ _ _ W) as (text & r & L & E & L').
    exists available, v, text, r. repeat split; assumption.
  - destruct (IOError e); discriminate.
Qed.

(** X4. When [hp_wmi.set_mode] reports success, the text it wrote to the
    platform profile file is one of the profiles the platform advertises
    and one of the target's candidates, namely the first candidate that
    is advertised: for Quiet, "low-power" whenever it is advertised. *)
Theorem set_mode_writes_first_legal (hw : HpWmiInterface.t)
    (mode : PerformanceMode.t) (fs fs' : sysfs) :
  HpWmiInterface.set_mode hw mode fs = Ok (true, fs') ->
  exists available v r before after,
    HpWmiInterface.get_available_profiles fs = Ok available /\
    Sysfs.lookup HpWmiInterface.PLATFORM_PROFILE fs' = Some (File v r true) /\
    In v available /\
    HpWmiInterface.profile_variations mode = (before ++ v :: after)%list /\
    (forall c, In c before -> ~ In c available) /\
    (mode = PerformanceMode.QUIET -> In "low-power" available -> v = "low-power").
Proof.
  intros H. destruct (hp_set_mode_true_inv _ _ _ _ H)
    as (available & v & text & r & _ & Hav & F & _ & L' & _).
  destruct (first_available_Some _ _ _ F) as (before & after & E & Hin & Hb).
  exists available, v, r, before, after. repeat split; try assumption.
  intros -> Hlow. simpl in E.
  destruct before as [|b before]; simpl in E; inversion E; subst; [reflexivity|].
  exfalso. apply (Hb "low-power"); [now left | assumption].
Qed.

Lemma set_mode_writes_first_legal_witness :
  exists fs' r,
    HpWmiInterface.set_mode laptop_hw PerformanceMode.QUIET
      (laptop "balanced" "quiet low-power balanced" (attr "2")) = Ok (true, fs') /\
    Sysfs.lookup HpWmiInterface.PLATFORM_PROFILE fs'
      = Some (File "low-power" r true).
Proof.
  destruct (set_mode_writes_first_legal laptop_hw PerformanceMode.QUIET
              (laptop "balanced" "quiet low-power balanced" (attr "2")) _ eq_refl)
    as (available & v & r & before & after & Hav & L & _ & _ & _ & Hlow).
  assert (E : v = "low-power").
  { apply (Hlow eq_refl). vm_compute in Hav. inversion Hav; subst available.
    right. now left. }
  rewrite E in L. eexists. exists r. split; [reflexivity | exact L].
Defined.

Lemma variation_maps_back mode v :
  In v (HpWmiInterface.profile_variations mode) ->
  HpWmiInterface.profile_map (Str.strip v) = mode.
Proof.
  destruct mode; simpl; intros H;
    repeat (destruct H as [<- | H]; [reflexivity|]); contradiction.
Qed.

Lemma hp_set_mode_reads_back (hw : HpWmiInterface.t) mode fs fs' :
  HpWmiInterface.set_mode hw mode fs = Ok (true, fs') ->
  exists text r,
    Sysfs.lookup HpWmiInterface.PLATFORM_PROFILE fs = Some (File text r true) /\
    HpWmiInterface.get_current_mode hw fs' = Ok (if r then Some mode else None).
Proof.
  intros H. destruct (hp_set_mode_true_inv _ _ _ _ H)
    as (available & v & text & r & Ha & _ & F & L & L' & _).
  exists text, r. split; [assumption|].
  destruct (first_available_Some _ _ _ F) as (before & after & E & _ & _).
  unfold HpWmiInterface.get_current_mode, Sysfs.read. rewrite Ha, L'. simpl.
  destruct r; [|reflexivity]. simpl.
  rewrite (variation_maps_back mode v); [reflexivity|].
  rewrite E. apply in_or_app. right. now left.
Qed.

(** X5. When [hp_wmi.set_mode] reports success, the next
    [get_current_mode] gives back the mode that was set (and nothing when
    the profile file may be written but not read): each candidate text of
    a mode is mapped back to that mode. *)
Theorem set_mode_round_trip (hw : HpWmiInterface.t) (mode : PerformanceMode.t)
    (fs fs' : sysfs) :
  HpWmiInterface.set_mode hw mode fs = Ok (true, fs') ->
  exists text r,
    Sysfs.lookup HpWmiInterface.PLATFORM_PROFILE fs = Some (File text r true) /\
    HpWmiInterface.get_current_mode hw fs' = Ok (if r then Some mode else None).
Proof. apply hp_set_mode_reads_back. Qed.

Lemma set_mode_round_trip_witness :
  exists fs',
    HpWmiInterface.set_mode laptop_hw PerformanceMode.PERFORMANCE
      (laptop "balanced" "balanced performance" (attr "2")) = Ok (true, fs') /\
    HpWmiInterface.get_current_mode laptop_hw fs'
      = Ok (Some PerformanceMode.PERFORMANCE).
Proof.
  exists (Sysfs.store HpWmiInterface.PLATFORM_PROFILE "performance"
            (laptop "balanced" "balanced performance" (attr "2"))).
  split; [reflexivity|].
  destruct (set_mode_round_trip laptop_hw PerformanceMode.PERFORMANCE
              (laptop "balanced" "balanced performance" (attr "2")) _ eq_refl)
    as (text & r & L & G).
  vm_compute in L. inversion L; subst. exact G.
Defined.

Lemma set_mode_map_back mode perf :
  FanController.set_mode_map mode = Some perf ->
  FanController.status_mode_map perf = mode.
Proof. destruct mode; simpl; intros H; inversion H; reflexivity. Qed.

Lemma normal_set_mode_unfold (self : FanController.t) mode perf fs :
  FanController.set_mode_map mode = Some perf ->
  FanController.set_mode self mode fs =
    bind (FanController.clear_max_fan self fs)
      (fun fs1 => HpWmiInterface.set_mode (FanController._hp_wmi self) perf fs1).
Proof. destruct mode; simpl; intros H; inversion H; reflexivity. Qed.

(** X6. Round trip through the controller: after [set_mode] towards
    Quiet, Balanced or Performance reported success, in a state where max
    fan did not read as on and the profile file can be read, the next
    status reports the mode that was set. *)
Theorem set_mode_then_status nvidia_smi (self : FanController.t)
    (mode : FanMode.t) (perf : PerformanceMode.t) (fs fs' : sysfs) text :
  FanController.set_mode_map mode = Some perf ->
  HpWmiInterface.get_max_fan (FanController._hp_wmi self) fs
    <> Ok (Some MaxFanMode.ON) ->
  Sysfs.read fs HpWmiInterface.PLATFORM_PROFILE = Ok text ->
  FanController.set_mode self mode fs = Ok (true, fs') ->
  reported_fan_mode nvidia_smi self fs' =
    after_sensors nvidia_smi self fs' (Some mode).
Proof.
  intros Hmap Hoff Hread Hset.
  rewrite (normal_set_mode_unfold _ _ _ _ Hmap) in Hset.
  destruct (clear_max_fan_frame self fs) as (fs1 & Hc & _ & Hsame & _).
  rewrite Hc in Hset. simpl in Hset. rewrite (Hsame Hoff) in Hset.
  destruct (hp_set_mode_reads_back _ _ _ _ Hset) as (text' & r & L & G).
  assert (r = true) as ->.
  { unfold Sysfs.read in Hread. rewrite L in Hread. now destruct r. }
  assert (Hm : HpWmiInterface.get_max_fan (FanController._hp_wmi self) fs'
               = HpWmiInterface.get_max_fan (FanController._hp_wmi self) fs).
  { apply get_max_fan_frame. intros q [path [_ ->]].
    destruct (hp_set_mode_frame (FanController._hp_wmi self) perf fs)
      as (ok & fs2 & E & Hf & _).
    rewrite Hset in E. inversion E; subst. apply Hf.
    intros E'. symmetry in E'. revert E'. apply pwm1_enable_not_profile. }
  destruct (get_max_fan_total (FanController._hp_wmi self) fs') as [mf Hmf].
  rewrite (reported_fan_mode_eq _ _ _ _ _ G Hmf). simpl.
  rewrite (set_mode_map_back _ _ Hmap).
  destruct mf as [[|]|]; try reflexivity.
  rewrite Hmf in Hm. now rewrite <- Hm in Hoff.
Qed.

Lemma set_mode_then_status_witness :
  reported_fan_mode (Ok None) laptop_controller
    (Sysfs.store HpWmiInterface.PLATFORM_PROFILE "performance"
       (laptop "balanced" "balanced performance" (attr "2")))
  = Ok (Some FanMode.PERFORMANCE).
Proof.
  rewrite (set_mode_then_status (Ok None) laptop_controller FanMode.PERFORMANCE
             PerformanceMode.PERFORMANCE
             (laptop "balanced" "balanced performance" (attr "2")) _
             ("balanced" ++ nl) eq_refl).
  - vm_compute. reflexivity.
  - vm_compute. discriminate.
  - reflexivity.
  - reflexivity.
Defined.

Lemma get_max_fan_Some_inv (hw : HpWmiInterface.t) fs m :
  HpWmiInterface.get_max_fan hw fs = Ok (Some m) ->
  exists path text w v,
    HpWmiInterface._hwmon_hp_wmi_path hw = Some path /\
    truthy (Some path) = true /\
    Sysfs.lookup (Path.join path "pwm1_enable") fs = Some (File text true w) /\
    py_int (Str.strip text) = Ok v /\
    m = (if (v =? 0)%Z then MaxFanMode.ON else MaxFanMode.OFF).
Proof.
  unfold HpWmiInterface.get_max_fan.
  destruct (HpWmiInterface._hwmon_hp_wmi_path hw) as [path|]; [|discriminate].
  destruct (truthy (Some path)) eqn:T; simpl negb; cbv iota; [|discriminate].
  destruct (negb (Sysfs.exists_ _ _)); [discriminate|].
  unfold Sysfs.read.
  destruct (Sysfs.lookup (Path.join path "pwm1_enable") fs) as [[|text r w]|] eqn:L;
    simpl; try discriminate.
  destruct r; simpl; [|discriminate].
  destruct (py_int (Str.strip text)) as [v|e] eqn:P; simpl.
  - intros H. inversion H. exists path, text, w, v. auto.
  - destruct (IOError_or_ValueError e); discriminate.
Qed.

(** X7. [toggle_max_fan]: when the boost switch cannot be read it reports
    failure and writes nothing; when it reports success, max fan reads
    next as the opposite of what it read before; whenever it reports
    failure the tree is as it was. *)
Theorem toggle_max_fan_flips (self : FanController.t) (fs : sysfs) :
  (HpWmiInterface.get_max_fan (FanController._hp_wmi self) fs = Ok None ->
   FanController.toggle_max_fan self fs = Ok (false, fs)) /\
  (forall fs',
     FanController.toggle_max_fan self fs = Ok (true, fs') ->
     exists m,
       HpWmiInterface.get_max_fan (FanController._hp_wmi self) fs = Ok (Some m) /\
       HpWmiInterface.get_max_fan (FanController._hp_wmi self) fs'
         = Ok (Some (toggled m))) /\
  (forall fs', FanController.toggle_max_fan self fs = Ok (false, fs') -> fs' = fs).
Proof.
  unfold FanController.toggle_max_fan.
  destruct (get_max_fan_total (FanController._hp_wmi self) fs) as [mf Hm].
  rewrite Hm. simpl. split; [|split].
  - intros H. inversion H. reflexivity.
  - intros fs' H. destruct mf as [m|]; [|discriminate].
    exists m. split; [reflexivity|].
    destruct (get_max_fan_Some_inv _ _ _ Hm) as (path & text & w & v & Hp & T & L & _).
    destruct (set_max_fan_true_inv _ _ _ _ H)
      as (path' & text' & r & Hp' & _ & L1 & L2 & _).
    rewrite Hp in Hp'. inversion Hp'; subst path'.
    rewrite L in L1. inversion L1; subst.
    rewrite (get_max_fan_after_write _ _ _ _ _ Hp T L2).
    destruct m; reflexivity.
  - intros fs' H. destruct mf as [m|]; [|now inversion H].
    destruct (set_max_fan_frame (FanController._hp_wmi self)
                (if MaxFanMode.eqb m MaxFanMode.ON then MaxFanMode.OFF
                 else MaxFanMode.ON) fs)
      as (ok & fs2 & E & _ & Hk).
    rewrite H in E. inversion E; subst. now apply Hk.
Qed.

Lemma toggle_max_fan_flips_witness :
  exists fs',
    FanController.toggle_max_fan laptop_controller boosted_laptop = Ok (true, fs') /\
    HpWmiInterface.get_max_fan laptop_hw fs' = Ok (Some MaxFanMode.OFF).
Proof.
  destruct (toggle_max_fan_flips laptop_controller boosted_laptop) as (_ & Hflip & _).
  destruct (Hflip (Sysfs.store "/sys/devices/platform/hp-wmi/hwmon/hwmon5/pwm1_enable"
                     "2" boosted_laptop) eq_refl) as (m & Hbefore & Hafter).
  eexists. split; [reflexivity|].
  vm_compute in Hbefore. inversion Hbefore; subst m. exact Hafter.
Defined.

Lemma contained_refl (self : FanController.t) fs ok :
  contained self fs (Ok (ok, fs)).
Proof. exists ok, fs. auto. Qed.

Lemma set_max_fan_contained (self : FanController.t) mode fs :
  contained self fs
    (HpWmiInterface.set_max_fan (FanController._hp_wmi self) mode fs).
Proof.
  destruct (set_max_fan_frame (FanController._hp_wmi self) mode fs)
    as (ok & fs' & E & Hf & Hk).
  exists ok, fs'. split; [assumption|]. split.
  - destruct ok.
    + destruct (set_max_fan_true_inv _ _ _ _ E) as (? & ? & ? & _ & _ & _ & _ & P).
      exact P.
    + now rewrite (Hk eq_refl).
  - intros q _ Hq. now apply Hf.
Qed.

Lemma hp_set_mode_contained (self : FanController.t) mode fs :
  contained self fs (HpWmiInterface.set_mode (FanController._hp_wmi self) mode fs).
Proof.
  destruct (hp_set_mode_frame (FanController._hp_wmi self) mode fs)
    as (ok & fs' & E & Hf & Hk).
  exists ok, fs'. split; [assumption|]. split.
  - destruct ok.
    + destruct (hp_set_mode_true_inv _ _ _ _ E)
        as (? & ? & ? & ? & _ & _ & _ & _ & _ & ->).
      apply store_paths.
    + now rewrite (Hk eq_refl).
  - intros q Hq _. apply Hf. congruence.
Qed.

(** X8. No write operation of the controller raises, whatever the tree:
    [set_mode] for each of the five modes, [set_max_fan] and
    [toggle_max_fan] return a success flag, create and remove no node,
    and leave every node other than the platform profile file and the
    boost switch as it was. *)
Theorem controller_writes_contained (self : FanController.t) (fs : sysfs) :
  (forall mode, contained self fs (FanController.set_mode self mode fs)) /\
  (forall enabled, contained self fs (FanController.set_max_fan self enabled fs)) /\
  contained self fs (FanController.toggle_max_fan self fs).
Proof.
  split; [|split].
  - intros mode.
    assert (Hnormal : forall perf,
      FanController.set_mode_map mode = Some perf ->
      contained self fs (FanController.set_mode self mode fs)).
    { intros perf Hmap. rewrite (normal_set_mode_unfold _ _ _ _ Hmap).
      unfold FanController.clear_max_fan.
      destruct (get_max_fan_total (FanController._hp_wmi self) fs) as [mf ->].
      simpl.
      assert (Hstep : forall fs1,
        map fst fs1 = map fst fs ->
        (forall q, q <> HpWmiInterface.PLATFORM_PROFILE ->
           ~ boost_file (FanController._hp_wmi self) q ->
           Sysfs.lookup q fs1 = Sysfs.lookup q fs) ->
        contained self fs
          (HpWmiInterface.set_mode (FanController._hp_wmi self) perf fs1)).
      { intros fs1 P1 F1.
        destruct (hp_set_mode_contained self perf fs1) as (ok & fs2 & E & P2 & F2).
        exists ok, fs2. split; [assumption|]. split; [congruence|].
        intros q Hq Hb. rewrite (F2 q Hq Hb). now apply F1. }
      destruct mf as [[|]|]; try (apply Hstep; auto).
      destruct (set_max_fan_contained self MaxFanMode.OFF fs)
        as (ok & fs1 & E & P1 & F1).
      rewrite E. simpl. now apply Hstep. }
    destruct mode; try (eapply Hnormal; reflexivity);
      apply set_max_fan_contained.
  - intros enabled. apply set_max_fan_contained.
  - unfold FanController.toggle_max_fan.
    destruct (get_max_fan_total (FanController._hp_wmi self) fs) as [mf ->].
    simpl. destruct mf as [m|]; [apply set_max_fan_contained | apply contained_refl].
Qed.

Lemma get_available_profiles_unreadable fs e :
  Sysfs.read fs HpWmiInterface.PLATFORM_PROFILE_CHOICES = Raise e ->
  HpWmiInterface.get_available_profiles fs = Ok [].
Proof.
  intros R. unfold HpWmiInterface.get_available_profiles.
  destruct (negb _); [reflexivity|].
  rewrite R. simpl. now rewrite (read_raises_IOError _ _ _ R).
Qed.

(** X9. Without a choices file that can be read, no profile can be set:
    [hp_wmi.set_mode] reports failure for each of the three modes and
    writes nothing, however writable the platform profile file is. *)
Theorem no_choices_no_profile (hw : HpWmiInterface.t) (mode : PerformanceMode.t)
    (fs : sysfs) (e : pyexn) :
  Sysfs.read fs HpWmiInterface.PLATFORM_PROFILE_CHOICES = Raise e ->
  HpWmiInterface.get_available_profiles fs = Ok [] /\
  HpWmiInterface.set_mode hw mode fs = Ok (false, fs).
Proof.
  intros R. pose proof (get_available_profiles_unreadable _ _ R) as Hav.
  split; [assumption|]. unfold HpWmiInterface.set_mode.
  destruct (negb _); [reflexivity|]. rewrite Hav. simpl.
  now destruct mode.
Qed.

Lemma no_choices_no_profile_witness :
  HpWmiInterface.get_available_profiles no_choices = Ok [] /\
  HpWmiInterface.set_mode (HpWmiInterface.mk true true None)
    PerformanceMode.BALANCED no_choices = Ok (false, no_choices).
Proof.
  apply (no_choices_no_profile _ _ no_choices FileNotFoundError). reflexivity.
Defined.

(** ** Finding the HP hwmon device *)

Lemma _detect_scan_Some fs dirs d :
  HpWmiInterface._detect_scan fs dirs = Ok (Some d) ->
  exists before after,
    dirs = (before ++ d :: after)%list /\
    names_hp fs d /\
    (forall x, In x before -> passed_over fs x).
Proof.
  induction dirs as [|x dirs IH]; simpl; [discriminate|].
  destruct (Sysfs.exists_ fs (Path.join x "name")) eqn:Ex.
  - destruct (Sysfs.read fs (Path.join x "name")) as [text|e] eqn:R; simpl;
      [|discriminate].
    destruct (Str.contains "hp" (Str.lower text)) eqn:C.
    + intros H. inversion H; subst. exists [], dirs.
      repeat split; [exists text; auto | intros y []].
    + intros H. destruct (IH H) as (before & after & E & Hn & Hb).
      exists (x :: before), after. subst dirs. repeat split; [assumption|].
      intros y [<- | Hy]; [right; exists text; auto | now apply Hb].
  - intros H. destruct (IH H) as (before & after & E & Hn & Hb).
    exists (x :: before), after. subst dirs. repeat split; [assumption|].
    intros y [<- | Hy]; [now left | now apply Hb].
Qed.

Lemma _detect_scan_None fs dirs :
  HpWmiInterface._detect_scan fs dirs = Ok None ->
  forall x, In x dirs -> passed_over fs x.
Proof.
  induction dirs as [|x dirs IH]; simpl; [intros _ y []|].
  destruct (Sysfs.exists_ fs (Path.join x "name")) eqn:Ex.
  - destruct (Sysfs.read fs (Path.join x "name")) as [text|e] eqn:R; simpl;
      [|discriminate].
    destruct (Str.contains "hp" (Str.lower text)) eqn:C; [discriminate|].
    intros H y [<- | Hy]; [right; exists text; auto | now apply IH].
  - intros H y [<- | Hy]; [now left | now apply IH].
Qed.

(** X10. What the constructor of the HP interface finds.  The two flags
    are the presence of the platform device and of the profile file.  A
    hwmon path is kept only when the platform device is present: the
    first hwmon child of the platform device when there is one, else the
    first class hwmon device, in enumeration order, whose name has "hp"
    in it in any letter case, every device before it having no name file
    or another name.  No path is kept when the platform device is absent,
    or when it has no hwmon child and every class device was passed
    over. *)
Theorem hp_hwmon_detection (fs : sysfs) (hw : HpWmiInterface.t) :
  HpWmiInterface.__init__ fs = Ok hw ->
  HpWmiInterface._hp_wmi_available hw
    = Sysfs.exists_ fs HpWmiInterface.HP_WMI_PATH /\
  HpWmiInterface._platform_profile_available hw
    = Sysfs.exists_ fs HpWmiInterface.PLATFORM_PROFILE /\
  let own := Sysfs.glob fs "/sys/devices/platform/hp-wmi/hwmon/hwmon*" in
  let class := Sysfs.glob fs "/sys/class/hwmon/hwmon*" in
  match HpWmiInterface._hwmon_hp_wmi_path hw with
  | Some path =>
      Sysfs.exists_ fs HpWmiInterface.HP_WMI_PATH = true /\
      ((exists rest, own = path :: rest) \/
       (own = [] /\
        exists before after,
          class = (before ++ path :: after)%list /\
          names_hp fs path /\
          (forall x, In x before -> passed_over fs x)))
  | None =>
      Sysfs.exists_ fs HpWmiInterface.HP_WMI_PATH = false \/
      (own = [] /\ forall x, In x class -> passed_over fs x)
  end.
Proof.
  unfold HpWmiInterface.__init__. intros H. inv_bind H. inversion H; subst; simpl.
  split; [reflexivity|]. split; [reflexivity|].
  unfold HpWmiInterface._detect_hp_wmi_hwmon in Ha.
  destruct (Sysfs.exists_ fs HpWmiInterface.HP_WMI_PATH) eqn:Hp; simpl in Ha.
  2:{ inversion Ha; subst. now left. }
  change (Path.join (Path.join HpWmiInterface.HP_WMI_PATH "hwmon") "hwmon*")
    with "/sys/devices/platform/hp-wmi/hwmon/hwmon*" in Ha.
  change (Path.join HpWmiInterface.HWMON_PATH "hwmon*")
    with "/sys/class/hwmon/hwmon*" in Ha.
  destruct (Sysfs.glob fs "/sys/devices/platform/hp-wmi/hwmon/hwmon*")
    as [|m rest] eqn:G.
  - destruct a as [path|].
    + split; [reflexivity|]. right. split; [reflexivity|].
      now apply _detect_scan_Some.
    + right. split; [reflexivity|]. now apply _detect_scan_None.
  - inversion Ha; subst. split; [reflexivity|]. left. now exists rest.
Qed.

Lemma hp_hwmon_detection_witness :
  exists hw,
    HpWmiInterface.__init__ hp_by_name = Ok hw /\
    HpWmiInterface._hwmon_hp_wmi_path hw = Some "/sys/class/hwmon/hwmon2" /\
    names_hp hp_by_name "/sys/class/hwmon/hwmon2".
Proof.
  exists (HpWmiInterface.mk true false (Some "/sys/class/hwmon/hwmon2")).
  split; [reflexivity|]. split; [reflexivity|].
  destruct (hp_hwmon_detection hp_by_name
              (HpWmiInterface.mk true false (Some "/sys/class/hwmon/hwmon2"))
              eq_refl) as (_ & _ & Hpath).
  simpl in Hpath. destruct Hpath as [_ [[rest Hown] | [_ Hclass]]].
  - vm_compute in Hown. discriminate.
  - destruct Hclass as (before & after & _ & Hn & _). exact Hn.
Defined.

(** X11. On a machine without the hp-wmi platform device, boost is out of
    reach even when a hwmon device named hp with a boost switch is
    there: the interface is built without a hwmon path, [get_max_fan]
    reads nothing and [set_max_fan] reports failure and writes nothing,
    on every later tree. *)
Theorem no_platform_device_no_boost (fs : sysfs) :
  Sysfs.exists_ fs HpWmiInterface.HP_WMI_PATH = false ->
  exists hw,
    HpWmiInterface.__init__ fs = Ok hw /\
    HpWmiInterface._hwmon_hp_wmi_path hw = None /\
    forall fs2,
      HpWmiInterface.get_max_fan hw fs2 = Ok None /\
      forall mode, HpWmiInterface.set_max_fan hw mode fs2 = Ok (false, fs2).
Proof.
  intros Hp. unfold HpWmiInterface.__init__, HpWmiInterface._detect_hp_wmi_hwmon.
  rewrite Hp. simpl. eexists. split; [reflexivity|]. split; [reflexivity|].
  intros fs2. split; [reflexivity | intros mode; reflexivity].
Qed.

Lemma no_platform_device_no_boost_witness :
  exists hw,
    HpWmiInterface.__init__ no_platform_device = Ok hw /\
    HpWmiInterface.set_max_fan hw MaxFanMode.ON no_platform_device
      = Ok (false, no_platform_device).
Proof.
  destruct (no_platform_device_no_boost no_platform_device eq_refl)
    as (hw & Hinit & _ & Hnone).
  exists hw. split; [exact Hinit|]. apply (Hnone no_platform_device).
Defined.

(** ** More on the CPU and GPU picks *)

(** X12. The GPU pick and the [nvidia-smi] query.  Without any reading of
    an amdgpu, nvidia or nouveau device, the GPU temperature is what the
    query gives, an exception it raises included.  With such a reading,
    the GPU temperature is that of a reading of one of these devices and
    the query plays no part. *)
Theorem gpu_query_is_last_resort (readings : list TemperatureReading) :
  ((forall r, In r readings -> ~ gpu_device r) ->
   forall nvidia_smi,
     TemperatureMonitor.gpu_temperature_of nvidia_smi readings = nvidia_smi) /\
  ((exists r, In r readings /\ gpu_device r) ->
   exists r,
     In r readings /\ gpu_device r /\
     forall nvidia_smi,
       TemperatureMonitor.gpu_temperature_of nvidia_smi readings
         = Ok (Some (temperature r))).
Proof.
  unfold TemperatureMonitor.gpu_temperature_of.
  set (t1 := fun dev reading =>
         (device reading =? dev) &&
         ((TemperatureMonitor.label_has "edge" reading
           || TemperatureMonitor.label_has "junction" reading)
          || Str.mem dev ["nvidia"; "nouveau"])).
  set (t2 := fun dev reading => device reading =? dev).
  assert (H1 : forall v,
    TemperatureMonitor.first_by_device TemperatureMonitor.gpu_devices t1 readings
      = Some v ->
    exists r, In r readings /\ gpu_device r /\ v = temperature r).
  { intros v H. destruct (first_by_device_Some _ _ _ _ H)
      as (dev & r & Hd & Hin & Hr & Hv).
    unfold t1 in Hr. apply andb_true_iff in Hr. destruct Hr as [E _].
    apply String.eqb_eq in E. exists r. repeat split; auto.
    unfold gpu_device. now rewrite E. }
  assert (H2 : forall v,
    TemperatureMonitor.first_by_device TemperatureMonitor.gpu_devices t2 readings
      = Some v ->
    exists r, In r readings /\ gpu_device r /\ v = temperature r).
  { intros v H. destruct (first_by_device_Some _ _ _ _ H)
      as (dev & r & Hd & Hin & Hr & Hv).
    unfold t2 in Hr. apply String.eqb_eq in Hr. exists r. repeat split; auto.
    unfold gpu_device. now rewrite Hr. }
  assert (N2 :
    TemperatureMonitor.first_by_device TemperatureMonitor.gpu_devices t2 readings
      = None ->
    forall r, In r readings -> ~ gpu_device r).
  { intros H r Hin Hd.
    pose proof (first_by_device_None _ _ _ H _ _ Hd Hin) as F.
    unfold t2 in F. rewrite String.eqb_refl in F. discriminate. }
  split.
  - intros Hno nvidia_smi.
    destruct (TemperatureMonitor.first_by_device _ t1 readings) as [v|] eqn:F1.
    { destruct (H1 v eq_refl) as (r & Hin & Hd & _). now destruct (Hno r Hin). }
    destruct (TemperatureMonitor.first_by_device _ t2 readings) as [v|] eqn:F2.
    { destruct (H2 v eq_refl) as (r & Hin & Hd & _). now destruct (Hno r Hin). }
    destruct nvidia_smi as [[v|]|e]; reflexivity.
  - intros (r0 & Hin0 & Hd0).
    destruct (TemperatureMonitor.first_by_device _ t1 readings) as [v|] eqn:F1.
    { destruct (H1 v eq_refl) as (r & Hin & Hd & ->). exists r. auto. }
    destruct (TemperatureMonitor.first_by_device _ t2 readings) as [v|] eqn:F2.
    { destruct (H2 v eq_refl) as (r & Hin & Hd & ->). exists r. auto. }
    now destruct (N2 eq_refl r0 Hin0).
Qed.

Lemma gpu_query_is_last_resort_witness :
  TemperatureMonitor.gpu_temperature_of (Raise FileNotFoundError) package_and_zone
    = Raise FileNotFoundError.
Proof.
  destruct (gpu_query_is_last_resort package_and_zone) as [Hno _].
  apply Hno. intros r [<- | [<- | []]] Hd; simpl in Hd;
    repeat (destruct Hd as [Hd | Hd]; [discriminate|]); contradiction.
Defined.

(** X13. Among the CPU devices coretemp comes first: the first reading of
    coretemp, in scan order, whose label contains "package" or "tctl" is
    the CPU temperature, whatever readings of the other devices come
    before or after it. *)
Theorem cpu_first_coretemp_package (before after : list TemperatureReading)
    (r : TemperatureReading) :
  device r = "coretemp" ->
  package_label r ->
  (forall x, In x before -> device x = "coretemp" -> ~ package_label x) ->
  TemperatureMonitor.cpu_temperature_of (before ++ r :: after)%list
    = Some (temperature r).
Proof.
  intros Hd Hl Hb. unfold TemperatureMonitor.cpu_temperature_of.
  unfold TemperatureMonitor.cpu_devices, TemperatureMonitor.first_by_device.
  rewrite (first_reading_app _ before r after); [reflexivity| |].
  - intros x Hx. destruct (device x =? "coretemp") eqn:E; [|reflexivity].
    apply String.eqb_eq in E. simpl. apply orb_false_iff.
    pose proof (Hb x Hx E) as Hn. unfold package_label in Hn.
    split; apply not_true_is_false; intros Hc; apply Hn; auto.
  - rewrite Hd. simpl. destruct Hl as [-> | ->]; [reflexivity|].
    apply orb_true_r.
Qed.

Lemma cpu_first_coretemp_package_witness :
  TemperatureMonitor.cpu_temperature_of
    [ mkReading "Tctl" "k10temp" 50%float None None;
      mkReading "Core 0" "coretemp" 40%float None None;
      mkReading "Package id 0" "coretemp" 45%float None None ]
  = Some 45%float.
Proof.
  apply (cpu_first_coretemp_package
           [ mkReading "Tctl" "k10temp" 50%float None None;
             mkReading "Core 0" "coretemp" 40%float None None ]
           []
           (mkReading "Package id 0" "coretemp" 45%float None None)).
  - reflexivity.
  - now left.
  - intros x [<- | [<- | []]] Hdev [H | H]; discriminate.
Defined.

(** ** Scans that skip what cannot be read *)

Lemma collect_returned {A B : Type} (body : A -> result B) catches items :
  (forall x e, In x items -> body x = Raise e -> catches e = true) ->
  collect body catches items = Ok (returned body items).
Proof.
  induction items as [|x items IH]; intros Hc; simpl; [reflexivity|].
  assert (IH' := IH (fun y e Hy => Hc y e (or_intror Hy))).
  destruct (body x) as [b|e] eqn:E.
  - rewrite IH'. reflexivity.
  - rewrite (Hc x e (or_introl eq_refl) E), IH'. reflexivity.
Qed.

Lemma collect_Raise {A B : Type} (body : A -> result B) catches items e :
  collect body catches items = Raise e ->
  exists x, In x items /\ body x = Raise e /\ catches e = false.
Proof.
  induction items as [|x items IH]; simpl; [discriminate|].
  destruct (body x) as [b|e0] eqn:E.
  - destruct (collect body catches items) as [l|e1]; simpl; [discriminate|].
    intros H. inversion H; subst.
    destruct (IH eq_refl) as (y & Hy & Ey & Cy). exists y. auto.
  - destruct (catches e0) eqn:C.
    + intros H. destruct (IH H) as (y & Hy & Ey & Cy). exists y. auto.
    + intros H. inversion H; subst. exists x. auto.
Qed.

Lemma millidegrees_to_celsius_raises raw e :
  millidegrees_to_celsius raw = Raise e -> e = OverflowError.
Proof.
  unfold millidegrees_to_celsius, truediv, float_of_int.
  destruct (binary_normalize prec emax raw 0 false); simpl;
    intros H; inversion H; reflexivity.
Qed.

Lemma _read_threshold_raises fs file e :
  TemperatureMonitor._read_threshold fs file = Raise e -> e = OverflowError.
Proof.
  unfold TemperatureMonitor._read_threshold.
  destruct (Sysfs.exists_ fs file); [|discriminate].
  destruct (Sysfs.read fs file) as [text|e0] eqn:R; simpl.
  2:{ unfold IOError_or_ValueError. rewrite (read_raises_IOError _ _ _ R).
      discriminate. }
  destruct (py_int (Str.strip text)) as [raw|e0] eqn:P; simpl.
  2:{ rewrite (py_int_raises_ValueError _ _ P). discriminate. }
  destruct (millidegrees_to_celsius raw) as [v|e0] eqn:C; simpl; [discriminate|].
  rewrite (millidegrees_to_celsius_raises _ _ C). simpl.
  intros H. inversion H. reflexivity.
Qed.

Lemma _read_temperature_raises fs device_name temp_file e :
  TemperatureMonitor._read_temperature fs device_name temp_file = Raise e ->
  IOError_or_ValueError e = true \/ e = OverflowError.
Proof.
  unfold TemperatureMonitor._read_temperature, IOError_or_ValueError.
  destruct (Sysfs.read fs temp_file) as [text|e0] eqn:R; simpl.
  2:{ intros H; inversion H; subst. left.
      now rewrite (read_raises_IOError _ _ _ R). }
  destruct (py_int (Str.strip text)) as [raw|e0] eqn:P; simpl.
  2:{ intros H; inversion H; subst. left.
      now rewrite (py_int_raises_ValueError _ _ P). }
  destruct (millidegrees_to_celsius raw) as [v|e0] eqn:C; simpl.
  2:{ intros H; inversion H; subst. right.
      eapply millidegrees_to_celsius_raises; eassumption. }
  assert (Hlabel : forall e1,
    (if Sysfs.exists_ fs (Str.replace "_input" "_label" temp_file)
     then l <- Sysfs.read fs (Str.replace "_input" "_label" temp_file) ;;
          Ok (Str.strip l)
     else Ok (device_name ++ "_" ++
              Str.replace "_input" "" (Path.basename temp_file))) = Raise e1 ->
    IOError e1 = true).
  { intros e1. destruct (Sysfs.exists_ fs _); [|discriminate].
    destruct (Sysfs.read fs (Str.replace "_input" "_label" temp_file))
      as [l|e2] eqn:R2; simpl; [discriminate|].
    intros H; inversion H; subst. eapply read_raises_IOError; eassumption. }
  match goal with
  | |- bind ?c _ = _ -> _ => destruct c as [lab|e1] eqn:L; simpl
  end.
  2:{ intros H; inversion H; subst. left. now rewrite (Hlabel e L). }
  destruct (TemperatureMonitor._read_threshold fs
              (Str.replace "_input" "_crit" temp_file)) as [c|e1] eqn:T1; simpl.
  2:{ intros H; inversion H; subst. right.
      eapply _read_threshold_raises; eassumption. }
  destruct (TemperatureMonitor._read_threshold fs
              (Str.replace "_input" "_max" temp_file)) as [m|e1] eqn:T2; simpl.
  2:{ intros H; inversion H; subst. right.
      eapply _read_threshold_raises; eassumption. }
  discriminate.
Qed.

Lemma _read_temperatures_from_hwmon_raises fs device_name hwmon_path e :
  TemperatureMonitor._read_temperatures_from_hwmon fs device_name hwmon_path
    = Raise e ->
  e = OverflowError.
Proof.
  unfold TemperatureMonitor._read_temperatures_from_hwmon. intros H.
  destruct (collect_Raise _ _ _ _ H) as (x & _ & Hx & Hc).
  destruct (_read_temperature_raises _ _ _ _ Hx) as [Hio | ->];
    [congruence | reflexivity].
Qed.

(** X14. One bad sensor file does not hide the others.  The scan of a
    hwmon device reports, in enumeration order, the reading of every
    [temp*_input] file from which a reading can be made, and skips a file
    that cannot be read or parsed or whose label file cannot be read, as
    long as no file holds an integer beyond the range of a float.  That
    [OverflowError] is the one exception [get_all_temperatures] lets
    through. *)
Theorem temperature_scan_skips_bad_files (fs : sysfs) :
  (forall device_name hwmon_path,
     let files := Sysfs.glob fs (Path.join hwmon_path "temp*_input") in
     (forall f, In f files ->
        TemperatureMonitor._read_temperature fs device_name f
          <> Raise OverflowError) ->
     TemperatureMonitor._read_temperatures_from_hwmon fs device_name hwmon_path
       = Ok (returned (TemperatureMonitor._read_temperature fs device_name) files)) /\
  (forall self e,
     TemperatureMonitor.get_all_temperatures self fs = Raise e ->
     e = OverflowError).
Proof.
  split.
  - intros device_name hwmon_path files Hno.
    unfold TemperatureMonitor._read_temperatures_from_hwmon.
    apply collect_returned. intros f e Hf He.
    destruct (_read_temperature_raises _ _ _ _ He) as [Hio | ->];
      [assumption|]. now destruct (Hno f Hf).
  - intros [devices] e. unfold TemperatureMonitor.get_all_temperatures. simpl.
    induction devices as [|[name path] devices IH]; simpl; [discriminate|].
    destruct (TemperatureMonitor._read_temperatures_from_hwmon fs name path)
      as [here|e0] eqn:Hh; simpl.
    + destruct (TemperatureMonitor._read_devices fs devices) as [more|e1];
        simpl; [discriminate|].
      intros H. inversion H; subst. now apply IH.
    + intros H. inversion H; subst.
      eapply _read_temperatures_from_hwmon_raises; eassumption.
Qed.

Lemma temperature_scan_skips_bad_files_witness :
  fmap (map (fun r => (label r, critical r)))
    (TemperatureMonitor._read_temperatures_from_hwmon flaky_sensor "k10temp"
       "/sys/class/hwmon/hwmon0")
  = Ok [("k10temp_temp3", None)].
Proof.
  destruct (temperature_scan_skips_bad_files flaky_sensor) as [Hscan _].
  rewrite Hscan.
  - vm_compute. reflexivity.
  - intros f Hf. vm_compute in Hf.
    destruct Hf as [<- | [<- | [<- | []]]]; vm_compute; discriminate.
Defined.

(** ** Discovery of the temperature devices *)

Lemma _discover_scan_keeps_key fs dirs devices found name path :
  TemperatureMonitor._discover_scan fs dirs devices = Ok found ->
  Dict.get name devices = Some path ->
  exists path', Dict.get name found = Some path'.
Proof.
  revert devices path. induction dirs as [|d dirs IH]; intros devices path H G.
  - simpl in H. inversion H; subst. eauto.
  - rewrite _discover_scan_step in H.
    destruct (declared_name fs d) as [k|] eqn:N; [|eapply IH; eassumption].
    destruct (String.eqb_spec k name) as [-> | Hk].
    + eapply IH; [eassumption | apply dict_get_set_same].
    + eapply IH; [eassumption|]. rewrite dict_get_set_other; eassumption.
Qed.

Lemma _discover_scan_covers fs dirs devices found d name :
  TemperatureMonitor._discover_scan fs dirs devices = Ok found ->
  In d dirs -> declared_name fs d = Some name ->
  exists path, Dict.get name found = Some path.
Proof.
  revert devices. induction dirs as [|x dirs IH]; intros devices H Hin N;
    [contradiction|].
  rewrite _discover_scan_step in H. destruct Hin as [-> | Hin].
  - rewrite N in H. eapply _discover_scan_keeps_key; [eassumption|].
    apply dict_get_set_same.
  - eapply IH; eassumption.
Qed.

Lemma _discover_scan_paths fs dirs devices found name path :
  TemperatureMonitor._discover_scan fs dirs devices = Ok found ->
  In (name, path) found -> In (name, path) devices \/ In path dirs.
Proof.
  revert devices. induction dirs as [|d dirs IH]; intros devices H Hin.
  - simpl in H. inversion H; subst. now left.
  - rewrite _discover_scan_step in H.
    destruct (IH _ H Hin) as [Hacc | Hd]; [|right; now right].
    destruct (declared_name fs d) as [k|]; [|now left].
    destruct (dict_In_set _ _ _ _ _ Hacc) as [[_ ->] | Hold];
      [right; now left | now left].
Qed.

(** X15. Temperature discovery returns for every tree, and its
    dictionary has each name once, every kept path an enumerated hwmon
    device filed under the name that device declares, and a path for
    every name that some enumerated device declares: a shared name loses
    devices, never names. *)
Theorem discovery_keeps_every_name (fs : sysfs) :
  exists self,
    TemperatureMonitor.__init__ fs = Ok self /\
    let devices := TemperatureMonitor._hwmon_devices self in
    let dirs := Sysfs.glob fs (Path.join TemperatureMonitor.HWMON_PATH "hwmon*") in
    NoDup (map fst devices) /\
    (forall name path, In (name, path) devices ->
       In path dirs /\ declared_name fs path = Some name) /\
    (forall d name, In d dirs -> declared_name fs d = Some name ->
       exists path, Dict.get name devices = Some path).
Proof.
  destruct (_discover_hwmon_devices_total fs) as [found Hfound].
  exists (TemperatureMonitor.mk found).
  split; [unfold TemperatureMonitor.__init__; now rewrite Hfound|].
  simpl. unfold TemperatureMonitor._discover_hwmon_devices in Hfound.
  assert (Hwf : devices_wf fs found).
  { eapply _discover_scan_wf; [|exact Hfound].
    split; [constructor | intros k p []]. }
  destruct Hwf as [Hnd Hnamed]. split; [assumption|]. split.
  - intros name path Hin. split; [|now apply Hnamed].
    destruct (_discover_scan_paths _ _ _ _ _ _ Hfound Hin) as [[] | Hd].
    assumption.
  - intros d name Hd N. eapply _discover_scan_covers; eassumption.
Qed.

(** ** Fan speeds *)

Lemma _other_fans_In (hw : HpWmiInterface.t) fs dirs speeds entry :
  HpWmiInterface._other_fans hw fs dirs = Ok speeds -> In entry speeds ->
  exists dir found,
    In dir dirs /\
    HpWmiInterface._read_fans_from_hwmon fs dir = Ok found /\
    In entry found.
Proof.
  revert speeds. induction dirs as [|d dirs IH]; simpl; intros speeds H Hin.
  - inversion H; subst. contradiction.
  - destruct (negb _).
    + inv_bind H. inv_bind H. inversion H; subst.
      apply in_app_or in Hin. destruct Hin as [Hin | Hin].
      * exists d, a. auto.
      * destruct (IH _ Ha0 Hin) as (dir & found & Hd & Hf & He).
        exists dir, found. auto.
    + destruct (IH _ H Hin) as (dir & found & Hd & Hf & He).
      exists dir, found. auto.
Qed.

Lemma _read_fans_from_hwmon_In fs dir found label rpm :
  HpWmiInterface._read_fans_from_hwmon fs dir = Ok found ->
  In (label, rpm) found ->
  exists fan_file text,
    In fan_file (Sysfs.glob fs (Path.join dir "fan*_input")) /\
    Sysfs.read fs fan_file = Ok text /\
    py_int (Str.strip text) = Ok rpm.
Proof.
  unfold HpWmiInterface._read_fans_from_hwmon. intros H Hin.
  destruct (collect_In _ _ _ _ _ H Hin) as (fan_file & Hf & Hbody).
  unfold HpWmiInterface._read_fan in Hbody.
  inv_bind Hbody. inv_bind Hbody. inv_bind Hbody. inversion Hbody; subst.
  exists fan_file, a. auto.
Qed.

(** X16. [get_fan_speeds] returns for every tree: a fan file that cannot
    be read or parsed is skipped.  Every speed it lists is the integer
    held by a [fan*_input] file of the HP hwmon device or of a class
    hwmon device. *)
Theorem fan_speeds_come_from_fan_files (hw : HpWmiInterface.t) (fs : sysfs) :
  exists speeds,
    HpWmiInterface.get_fan_speeds hw fs = Ok speeds /\
    forall label rpm, In (label, rpm) speeds ->
      exists dir fan_file text,
        (HpWmiInterface._hwmon_hp_wmi_path hw = Some dir \/
         In dir (Sysfs.glob fs "/sys/class/hwmon/hwmon*")) /\
        In fan_file (Sysfs.glob fs (Path.join dir "fan*_input")) /\
        Sysfs.read fs fan_file = Ok text /\
        py_int (Str.strip text) = Ok rpm.
Proof.
  destruct (get_fan_speeds_total hw fs) as [speeds Hs].
  exists speeds. split; [assumption|].
  intros label rpm Hin. unfold HpWmiInterface.get_fan_speeds in Hs.
  inv_bind Hs. inv_bind Hs. inversion Hs; subst.
  apply in_app_or in Hin. destruct Hin as [Hin | Hin].
  - destruct (HpWmiInterface._hwmon_hp_wmi_path hw) as [path|] eqn:Hp.
    2:{ inversion Ha; subst. contradiction. }
    destruct (truthy (Some path)).
    2:{ inversion Ha; subst. contradiction. }
    destruct (_read_fans_from_hwmon_In _ _ _ _ _ Ha Hin) as (f & text & Hf & R & P).
    exists path, f, text. auto.
  - destruct (_other_fans_In _ _ _ _ _ Ha0 Hin) as (dir & found & Hd & Hf & He).
    destruct (_read_fans_from_hwmon_In _ _ _ _ _ Hf He) as (f & text & Hg & R & P).
    exists dir, f, text. repeat split; auto.
Qed.

(** ** The process and the command line *)

Lemma bindM_Ok_inv {A B : Type} (c : M A) (k : A -> M B) w b w' :
  bindM c k w = Ok (b, w') ->
  exists a w1, c w = Ok (a, w1) /\ k a w1 = Ok (b, w').
Proof.
  unfold bindM. destruct (c w) as [[a w1]|e]; [eauto | discriminate].
Qed.

Lemma print_inv line w u w' :
  print line w = Ok (u, w') -> tree w' = tree w.
Proof. unfold print. intros H. inversion H. reflexivity. Qed.

Lemma writing_inv f w ok w' :
  writing f w = Ok (ok, w') -> f (tree w) = Ok (ok, tree w').
Proof.
  unfold writing. intros H. inv_bind H. inversion H; subst. simpl.
  now destruct a.
Qed.

Lemma get_fan_controller_inv w c w1 :
  get_fan_controller w = Ok (c, w1) ->
  tree w1 = tree w /\ stdout w1 = stdout w /\ the_fan_controller w1 = Some c.
Proof.
  unfold get_fan_controller.
  destruct (the_fan_controller w) as [c0|] eqn:F.
  - intros H. inversion H; subst. auto.
  - unfold bindM, get_hp_wmi, get_temperature_monitor.
    destruct (the_hp_wmi w) as [hp|].
    + destruct (the_temp_monitor w) as [mon|].
      * intros H. inversion H; subst. auto.
      * destruct (TemperatureMonitor.__init__ (tree w)) as [mon|e]; simpl;
          [|discriminate].
        intros H. inversion H; subst. auto.
    + destruct (HpWmiInterface.__init__ (tree w)) as [hp|e]; simpl;
        [|discriminate].
      destruct (the_temp_monitor w) as [mon|].
      * intros H. inversion H; subst. auto.
      * simpl. destruct (TemperatureMonitor.__init__ (tree w)) as [mon|e]; simpl;
          [|discriminate].
        intros H. inversion H; subst. auto.
Qed.

(** X17. The controller is built once.  In a fresh process
    [get_fan_controller] runs the two discoveries on the tree of that
    moment and keeps the controller; a call that returned leaves tree and
    console as they were, and every later call gives the same controller
    without looking at the tree, whatever the tree has become. *)
Theorem controller_is_built_once :
  (forall fs,
     get_fan_controller (boot fs) =
       (c <- FanController.__init__ fs ;;
        Ok (c, mkWorld fs [] (Some (FanController._hp_wmi c))
                 (Some (FanController._temp_monitor c)) (Some c)))) /\
  (forall w c w1,
     get_fan_controller w = Ok (c, w1) ->
     tree w1 = tree w /\ stdout w1 = stdout w /\
     forall fs2 lines,
       let later := mkWorld fs2 lines (the_hp_wmi w1) (the_temp_monitor w1)
                      (the_fan_controller w1) in
       get_fan_controller later = Ok (c, later)).
Proof.
  split.
  - intros fs. unfold get_fan_controller, boot, bindM, get_hp_wmi,
      get_temperature_monitor, FanController.__init__. simpl.
    destruct (HpWmiInterface.__init__ fs) as [hp|e]; simpl; [|reflexivity].
    destruct (TemperatureMonitor.__init__ fs) as [mon|e]; reflexivity.
  - intros w c w1 H. destruct (get_fan_controller_inv _ _ _ H) as (Ht & Hs & Hc).
    repeat split; try assumption.
    intros fs2 lines later. unfold get_fan_controller. subst later. simpl.
    now rewrite Hc.
Qed.

Lemma controller_is_built_once_witness :
  get_fan_controller
    (mkWorld confined [] (Some laptop_hw) (Some laptop_monitor)
       (Some laptop_controller))
  = Ok (laptop_controller,
        mkWorld confined [] (Some laptop_hw) (Some laptop_monitor)
          (Some laptop_controller)).
Proof.
  destruct controller_is_built_once as [Hboot Hlater].
  destruct (Hlater (boot boosted_laptop) laptop_controller
              (mkWorld boosted_laptop [] (Some laptop_hw) (Some laptop_monitor)
                 (Some laptop_controller)) eq_refl)
    as (_ & _ & Hsame).
  exact (Hsame confined []).
Defined.

(** X18. The exit code of the command-line [set_mode].  A call that
    returns has built or fetched the controller; for a name outside the
    mode table it returns 1 and the tree is as it was; for a name in the
    table it has called the controller's [set_mode] with the mode of that
    name and returns 0 when that reported success and 1 when it reported
    failure. *)
Theorem cli_set_mode_exit_code (mode_str : string) (w w' : World) (code : Z) :
  Main.set_mode mode_str w = Ok (code, w') ->
  exists c w1,
    get_fan_controller w = Ok (c, w1) /\
    match Main.mode_map (Str.lower mode_str) with
    | None => code = 1%Z /\ tree w' = tree w
    | Some mode =>
        exists ok,
          FanController.set_mode c mode (tree w) = Ok (ok, tree w') /\
          code = (if ok then 0 else 1)%Z
    end.
Proof.
  unfold Main.set_mode. intros H.
  apply bindM_Ok_inv in H. destruct H as (c & w1 & Hc & H).
  exists c, w1. split; [assumption|].
  destruct (get_fan_controller_inv _ _ _ Hc) as (Ht & _ & _).
  destruct (Main.mode_map (Str.lower mode_str)) as [mode|].
  - apply bindM_Ok_inv in H. destruct H as (u & w2 & Hp & H).
    apply bindM_Ok_inv in H. destruct H as (ok & w3 & Hw & H).
    apply writing_inv in Hw. rewrite (print_inv _ _ _ _ Hp), Ht in Hw.
    exists ok. destruct ok.
    + apply bindM_Ok_inv in H. destruct H as (u' & w4 & Hp' & H).
      inversion H; subst. now rewrite (print_inv _ _ _ _ Hp').
    + apply bindM_Ok_inv in H. destruct H as (u' & w4 & Hp' & H).
      inversion H; subst. now rewrite (print_inv _ _ _ _ Hp').
  - apply bindM_Ok_inv in H. destruct H as (u & w2 & Hp & H).
    apply bindM_Ok_inv in H. destruct H as (u' & w3 & Hp' & H).
    inversion H; subst. split; [reflexivity|].
    now rewrite (print_inv _ _ _ _ Hp'), (print_inv _ _ _ _ Hp).
Qed.

Lemma cli_set_mode_exit_code_witness :
  exists w',
    Main.set_mode "Turbo" (boot boosted_laptop) = Ok (1%Z, w') /\
    tree w' = boosted_laptop.
Proof.
  eexists. split; [vm_compute; reflexivity|].
  match goal with
  | |- tree ?w' = _ =>
      destruct (cli_set_mode_exit_code "Turbo" (boot boosted_laptop) w' 1%Z)
        as (c & w1 & _ & Hunknown)
  end.
  - vm_compute. reflexivity.
  - vm_compute in Hunknown. exact (proj2 Hunknown).
Defined.

(** X19. The command-line [set_mode] reads its argument through the mode
    table after lower-casing it: two arguments that the table sends to
    the same mode act alike, with the same lines printed, the same
    writes and the same exit code.  So "auto" is "off", and "QUIET" is
    "quiet". *)
Theorem cli_set_mode_by_table (s1 s2 : string) (w : World) :
  Main.mode_map (Str.lower s1) = Main.mode_map (Str.lower s2) ->
  Main.mode_map (Str.lower s1) <> None ->
  Main.set_mode s1 w = Main.set_mode s2 w.
Proof.
  intros E Hknown. unfold Main.set_mode, bindM.
  destruct (get_fan_controller w) as [[c w1]|e]; [|reflexivity].
  rewrite <- E. destruct (Main.mode_map (Str.lower s1)); [reflexivity|].
  now contradiction Hknown.
Qed.

Lemma cli_set_mode_by_table_witness :
  Main.set_mode "AUTO" (boot boosted_laptop)
    = Main.set_mode "off" (boot boosted_laptop).
Proof.
  apply cli_set_mode_by_table; [reflexivity | discriminate].
Defined.

(** X20. The exit code of the command-line [set_max_fan].  Its argument
    enables max fan when it is "on", "1", "true" or "yes" in any
    letter case and disables it otherwise, with no argument refused; a
    call that returns has called [set_max_fan] of the HP interface with
    that mode, and returns 0 when that reported success and 1 when it
    reported failure. *)
Theorem cli_set_max_fan_exit_code (enabled_str : string) (w w' : World) (code : Z) :
  Main.set_max_fan enabled_str w = Ok (code, w') ->
  exists c w1 ok,
    get_fan_controller w = Ok (c, w1) /\
    HpWmiInterface.set_max_fan (FanController._hp_wmi c)
      (if Str.mem (Str.lower enabled_str) ["on"; "1"; "true"; "yes"]
       then MaxFanMode.ON else MaxFanMode.OFF)
      (tree w) = Ok (ok, tree w') /\
    code = (if ok then 0 else 1)%Z.
Proof.
  unfold Main.set_max_fan. intros H.
  apply bindM_Ok_inv in H. destruct H as (c & w1 & Hc & H).
  destruct (get_fan_controller_inv _ _ _ Hc) as (Ht & _ & _).
  apply bindM_Ok_inv in H. destruct H as (u & w2 & Hp & H).
  apply bindM_Ok_inv in H. destruct H as (ok & w3 & Hw & H).
  apply writing_inv in Hw. rewrite (print_inv _ _ _ _ Hp), Ht in Hw.
  unfold FanController.set_max_fan in Hw.
  exists c, w1, ok. split; [assumption|].
  destruct ok.
  - apply bindM_Ok_inv in H. destruct H as (u' & w4 & Hp' & H).
    inversion H; subst. now rewrite (print_inv _ _ _ _ Hp').
  - apply bindM_Ok_inv in H. destruct H as (u' & w4 & Hp' & H).
    inversion H; subst. now rewrite (print_inv _ _ _ _ Hp').
Qed.

Lemma cli_set_max_fan_exit_code_witness :
  exists w',
    Main.set_max_fan "enable" (boot boosted_laptop) = Ok (0%Z, w') /\
    HpWmiInterface.set_max_fan laptop_hw MaxFanMode.OFF boosted_laptop
      = Ok (true, tree w').
Proof.
  eexists. split; [vm_compute; reflexivity|].
  match goal with
  | |- _ = Ok (true, tree ?w') =>
      destruct (cli_set_max_fan_exit_code "enable" (boot boosted_laptop) w' 0%Z)
        as (c & w1 & ok & Hc & Hset & Hcode)
  end.
  - vm_compute. reflexivity.
  - vm_compute in Hc. inversion Hc; subst c.
    destruct ok; [exact Hset | discriminate].
Defined.



(** X22. [main] with [--no-gui] and a [--mode]: the run is the
    command-line [set_mode] and nothing more, so a [--max-fan] given
    beside it is never applied. *)
Theorem main_no_gui_mode_skips_max_fan
    (print_status print_diagnostics run_gui_mode : M Z)
    (args : Main.Args) (m : string) (w : World) :
  Main.diagnostics args = false ->
  Main.status args = false ->
  Main.no_gui args = true ->
  Main.mode args = Some m ->
  m <> "" ->
  Main.main print_status print_diagnostics run_gui_mode args w
    = Main.set_mode m w.
Proof.
  intros Hd Hs Hn Hm Hne. unfold Main.main. rewrite Hd, Hs, Hn, Hm.
  rewrite (truthy_nonempty _ Hne). unfold bindM, ret.
  destruct (Main.set_mode m w) as [[r w1]|e]; reflexivity.
Qed.

Lemma main_no_gui_mode_skips_max_fan_witness :
  Main.main (ret 7%Z) (ret 8%Z) (ret 9%Z)
    (Main.mkArgs false (Some "quiet") (Some "on") false true false false)
    (boot boosted_laptop)
  = Main.set_mode "quiet" (boot boosted_laptop).
Proof.
  apply main_no_gui_mode_skips_max_fan; try reflexivity. discriminate.
Defined.
